(** * ml-person-detection: scripts/develNet/createDataset.py

    A shallow embedding of the [DatasetCreator] pipeline: ground-plane
    filtering, clustering of a LIDAR point cloud by labelled bounding boxes,
    per-cluster feature records and the density filter over them.

    Conventions.
    - A point is a row of float64 values (x, y, z, intensity); an (n * 4)
      numpy array is the list of its rows, so [len(a)] and [a.shape[0]] are
      [length a].
    - float64 is Rocq's primitive binary64 float.
    - A Python [dict] with string keys is a [gmap string _].
    - A call that may raise returns a [result]; the exception classes are the
      Python ones the source can meet.
    - The helpers imported from [modules.helperFunctions]
      ([remove_groundplane], [get_pts_in_bbox], [extract_cluster_parameters])
      are not part of this file of the repository; the methods that call them
      take them as section variables.
    - Calls to [self.logger] only format and emit text and are left out. *)

From Stdlib Require Import Floats.
From stdpp Require Import gmap strings list fin_maps pretty sorting.

(** ** Exceptions and results *)

Inductive exn : Type :=
  | TypeError
  | AttributeError
  | IndexError
  | KeyError
  | ValueError
  | SystemError.

Inductive result (A : Type) : Type :=
  | Ok (a : A)
  | Raise (e : exn).
Arguments Ok {A} a.
Arguments Raise {A} e.

#[export] Instance result_ret : MRet result := λ A a, Ok a.
#[export] Instance result_bind : MBind result := λ A B f r,
  match r with
  | Ok a => f a
  | Raise e => Raise e
  end.
#[export] Instance result_fmap : FMap result := λ A B f r,
  match r with
  | Ok a => Ok (f a)
  | Raise e => Raise e
  end.

Definition returns {A} (r : result A) : Prop := ∃ a, r = Ok a.
Definition raises {A} (r : result A) : Prop := ∃ e, r = Raise e.

(** ** Data *)

Abbreviation row := (list float).
Abbreviation ndarray := (list row).

(** [a > b] on float64; false as soon as one side is NaN. *)
Definition float_gt (a b : float) : bool := PrimFloat.ltb b a.

(** The float64 value of a Python [int] that is a count. *)
Definition float_of_count (n : nat) : float :=
  PrimFloat.of_uint63 (Uint63.of_Z (Z.of_nat n)).

(** A waymo object label, as the pipeline reads it: [label.id],
    [label.type], and the box geometry it carries. *)
Module Label.
Record t : Type := mk {
  id : string;
  type : Z;
  center : float * float * float;
  dimensions : float * float * float;
  heading : float
}.

(** length * width * height *)
Definition volume (b : t) : float :=
  let '(l, w, h) := dimensions b in (l * w * h)%float.
End Label.

(** The [Features] object of [modules.helperFunctions], by the attributes
    [computeClusterMetadata] assigns. *)
Record Features : Type := mkFeatures {
  cluster_id : string;
  frame_id : Z;
  cls : Z;
  cnt : nat;
  parameters : list float
}.

(** What a caller may pass as the [cluster] argument. *)
Inductive pyobj : Type :=
  | PyNone
  | PyList (rows : list row)
  | PyTuple (rows : list row)
  | PyArray (a : ndarray).

(** [x is not None] *)
Definition is_not_None (x : pyobj) : bool :=
  match x with
  | PyNone => false
  | _ => true
  end.

(** [hasattr(x, 'shape')]: only numpy arrays carry a shape. *)
Definition has_shape (x : pyobj) : bool :=
  match x with
  | PyArray _ => true
  | _ => false
  end.

(** [np.array(x)] for a sequence of rows ([None] never reaches it). *)
Definition np_array (x : pyobj) : ndarray :=
  match x with
  | PyNone => []
  | PyList rows => rows
  | PyTuple rows => rows
  | PyArray a => a
  end.

(** [x.shape[0]] *)
Definition shape_0 (x : pyobj) : result nat :=
  match x with
  | PyArray a => Ok (length a)
  | _ => Raise AttributeError
  end.

(** A dict entry of [clusterByBBox]: an array, or [None]. *)
Definition entry_obj (v : option ndarray) : pyobj :=
  match v with
  | Some a => PyArray a
  | None => PyNone
  end.

(** [l[i]] on a Python list, [i >= 0]. *)
Definition list_getitem {A} (l : list A) (i : nat) : result A :=
  match l !! i with
  | Some x => Ok x
  | None => Raise IndexError
  end.

(** [d[k]] on a Python dict. *)
Definition dict_getitem {V} (d : gmap string V) (k : string) : result V :=
  match d !! k with
  | Some v => Ok v
  | None => Raise KeyError
  end.

(** A monadic left fold: the body of a [for] loop run over the items in
    order, stopping at the first exception. *)
Fixpoint for_each {A S} (body : S → A → result S) (items : list A) (s : S)
    : result S :=
  match items with
  | [] => Ok s
  | x :: rest => s' ← body s x; for_each body rest s'
  end.

(** ** Frames and saved documents *)

(** A decoded frame: what [waymo_converter.unpack_frame(frame)] yields,
    and [frame.context.name]. *)
Record Frame : Type := mkFrame {
  frame_pcl : list row;
  frame_bboxes : list Label.t;
  context_name : string
}.

Definition unpack_frame (frame : Frame) : list row * list Label.t :=
  (frame_pcl frame, frame_bboxes frame).

(** What [saveClusterMetadata(metadata, name)] is handed: the document and
    the frame name its file is called after. *)
Record Saved (D : Type) : Type := mkSaved {
  saved_name : string;
  saved_metadata : D
}.
Arguments mkSaved {D} _ _.
Arguments saved_name {D} _.
Arguments saved_metadata {D} _.

(** ** DatasetCreator *)

Definition clusterByBBox_thresh : Z := 5.
Definition filterMetadata_thresh : float := 20%float.

Section DatasetCreator.

(** [remove_groundplane(pcl)] *)
Variable remove_groundplane : ndarray → ndarray.
(** [get_pts_in_bbox(pcl, label, logger)] *)
Variable get_pts_in_bbox : ndarray → Label.t → ndarray.
(** [extract_cluster_parameters(np_cluster, display=False)] *)
Variable extract_cluster_parameters : ndarray → result (list float).

(** [list(pt)] *)
Definition pt_list (pt : row) : row := pt.

(** Lines 72-79. *)
Definition filterPcl (pcl : list row) : ndarray :=
  let pcl_out := remove_groundplane (pt_list <$> pcl) in
  pcl_out.

(** Lines 107-114: the body of the loop over [bboxes]. *)
Definition clusterByBBox_body (pcl : ndarray) (thresh : Z)
    (obj_pcls : gmap string (option ndarray)) (label : Label.t)
    : gmap string (option ndarray) :=
  let cluster := get_pts_in_bbox pcl label in
  if bool_decide (thresh ≤ Z.of_nat (length cluster))%Z
  then <[Label.id label := Some cluster]> obj_pcls
  else <[Label.id label := None]> obj_pcls.

(** Lines 81-120. *)
Definition clusterByBBox (pcl : ndarray) (bboxes : list Label.t)
    (thresh : Z) : gmap string (option ndarray) :=
  foldl (clusterByBBox_body pcl thresh) ∅ bboxes.

(** Lines 122-149. *)
Definition computeClusterMetadata (cluster : pyobj) (bbox : Label.t)
    (frame : Z) : result Features :=
  if is_not_None cluster then
    let np_cluster := np_array cluster in
    let cluster_id := Label.id bbox in
    let cls := Label.type bbox in
    cnt ← shape_0 cluster;
    parameters ← extract_cluster_parameters np_cluster;
    Ok (mkFeatures cluster_id frame cls cnt parameters)
  else Raise TypeError.

(** Lines 174-178: the body of the loop over [range(len(metadata))]. *)
Definition filterMetadata_body {V} (metadata : list Features)
    (clusters : gmap string V) (thresh : float)
    (acc : list Features * gmap string V) (i : nat)
    : result (list Features * gmap string V) :=
  let '(filtered_metadata, filtered_clusters) := acc in
  c ← list_getitem metadata i;
  density ← list_getitem (parameters c) 7;
  if float_gt density thresh then
    v ← dict_getitem clusters (cluster_id c);
    Ok (filtered_metadata ++ [c], <[cluster_id c := v]> filtered_clusters)
  else Ok (filtered_metadata, filtered_clusters).

(** Lines 151-183. *)
Definition filterMetadata {V} (metadata : list Features)
    (clusters : gmap string V) (thresh : float)
    : result (list Features * gmap string V) :=
  for_each (filterMetadata_body metadata clusters thresh)
    (seq 0 (length metadata)) ([], ∅).

(** How Python binds the arguments of a call to
    [filterMetadata(self, metadata, clusters, thresh=20)]: a required
    parameter left without an argument raises TypeError before the body
    runs; [thresh] falls back to its default. *)
Definition call_filterMetadata {V} (metadata : option (list Features))
    (clusters : option (gmap string V)) (thresh : option float)
    : result (list Features * gmap string V) :=
  match metadata, clusters with
  | Some metadata, Some clusters =>
      filterMetadata metadata clusters (default filterMetadata_thresh thresh)
  | _, _ => Raise TypeError
  end.

(** Lines 217-218: the list comprehension
    [[computeClusterMetadata(clusters[b.id], b, frame_id)
       for b in bboxes if clusters[b.id] is not None]]. *)
Fixpoint parseFrame_metadata (clusters : gmap string (option ndarray))
    (frame : Z) (bboxes : list Label.t) : result (list Features) :=
  match bboxes with
  | [] => Ok []
  | b :: rest =>
      v ← dict_getitem clusters (Label.id b);
      if is_not_None (entry_obj v) then
        arg ← dict_getitem clusters (Label.id b);
        m ← computeClusterMetadata (entry_obj arg) b frame;
        ms ← parseFrame_metadata clusters frame rest;
        Ok (m :: ms)
      else parseFrame_metadata clusters frame rest
  end.

(** Lines 204-230. The Python return value is always [None]; the result
    here is the document passed on to [saveClusterMetadata]. *)
Definition parseFrame (frame : Frame) (frame_no : Z)
    : result (Saved (list Features * gmap string (option ndarray))) :=
  let '(pcl, bboxes) := unpack_frame frame in
  let pcl := filterPcl pcl in
  let clusters := clusterByBBox pcl bboxes clusterByBBox_thresh in
  metadata ← parseFrame_metadata clusters frame_no bboxes;
  sub_metadata ← call_filterMetadata (Some metadata) None None;
  Ok (mkSaved (context_name frame) sub_metadata).

(** Lines 347-352 of [DatasetCreatorVis.parseFrame]: the loop that keeps
    the boxes whose cluster is not [None]. *)
Definition valid_body (clusters : gmap string (option ndarray))
    (acc : gmap string (option ndarray) * list Label.t) (bbox : Label.t)
    : result (gmap string (option ndarray) * list Label.t) :=
  let '(valid_clusters, valid_bboxes) := acc in
  v ← dict_getitem clusters (Label.id bbox);
  if is_not_None (entry_obj v) then
    w ← dict_getitem clusters (Label.id bbox);
    Ok (<[Label.id bbox := w]> valid_clusters, valid_bboxes ++ [bbox])
  else Ok (valid_clusters, valid_bboxes).

(** Lines 363-364: [[computeClusterMetadata(valid_clusters[bbox.id], bbox,
    frame_id) for i, bbox in enumerate(valid_bboxes)]]. *)
Definition vis_metadata (valid_clusters : gmap string (option ndarray))
    (frame : Z) (valid_bboxes : list Label.t) : result (list Features) :=
  mapM (λ bbox, arg ← dict_getitem valid_clusters (Label.id bbox);
                computeClusterMetadata (entry_obj arg) bbox frame)
       valid_bboxes.

(** Lines 380-386: with [visualize == 4] the surviving clusters are
    concatenated for display, and [np.concatenate] of no array at all
    raises ValueError. Publishing itself is outside the model. *)
Definition vis_publish_filtered {V} (visualize : Z)
    (sub_clusters : gmap string V) : result unit :=
  if bool_decide (visualize = 4%Z) then
    if bool_decide (sub_clusters = ∅) then Raise ValueError else Ok ()
  else Ok ().

(** Lines 313-393, [DatasetCreatorVis.parseFrame]. [visualize] is the value
    read back from the parameter server at line 328. The branches for
    [visualize] 1 to 3 only publish (the third inside [try]/[except]), and
    the dict built at line 345 is replaced at line 347 before any use. *)
Definition parseFrameVis (visualize : Z) (frame : Frame) (frame_no : Z)
    : result (Saved (list Features)) :=
  let '(pcl, bboxes) := unpack_frame frame in
  let pcl := filterPcl pcl in
  let clusters := clusterByBBox pcl bboxes clusterByBBox_thresh in
  '(valid_clusters, valid_bboxes) ← for_each (valid_body clusters) bboxes (∅, []);
  metadata ← vis_metadata valid_clusters frame_no valid_bboxes;
  '(sub_metadata, sub_clusters) ←
    call_filterMetadata (Some metadata) (Some valid_clusters) None;
  _ ← vis_publish_filtered visualize sub_clusters;
  Ok (mkSaved (context_name frame) sub_metadata).

End DatasetCreator.

(** ** filterMetadata over a store of Python objects

    [filterMetadata] receives references to a list object and a dict object,
    and builds its two results by appending to and assigning into objects of
    its own. Here the objects live in a store, lists hold references to the
    [Features] objects and dicts hold references to the arrays, so that what
    the call does to objects that exist before it can be stated. The
    arguments are a list of [Features] and a dict, as the docstring has
    them; an operation met with an object of another kind raises, under an
    exception class that is nominal here. *)
Module Store.

Abbreviation loc := positive.

(** A value stored in a dict: [None] or a reference. *)
Inductive pyval : Type :=
  | PNone
  | PRef (l : loc).

Inductive obj : Type :=
  | OFeatures (f : Features)
  | OArray (a : ndarray)
  | OList (items : list loc)
  | ODict (entries : gmap string pyval).

Abbreviation store := (gmap loc obj).

(** A computation over the store that may raise. *)
Definition M (A : Type) : Type := store → result A * store.

#[global] Instance M_ret : MRet M := λ A a h, (Ok a, h).
#[global] Instance M_bind : MBind M := λ A B f m h,
  match m h with
  | (Ok a, h') => f a h'
  | (Raise e, h') => (Raise e, h')
  end.

Definition raise {A} (e : exn) : M A := λ h, (Raise e, h).

(** A new object, at a location no object has yet. *)
Definition alloc (o : obj) : M loc := λ h,
  let l := fresh (dom h) in (Ok l, <[l := o]> h).

(** Following a reference; every reference a Python program holds is to
    a live object, so the last case is not met from well-formed stores. *)
Definition read (l : loc) : M obj := λ h,
  match h !! l with
  | Some o => (Ok o, h)
  | None => (Raise SystemError, h)
  end.

Definition write (l : loc) (o : obj) : M unit := λ h, (Ok (), <[l := o]> h).

(** [len(x)] *)
Definition len (x : loc) : M nat :=
  o ← read x;
  match o with
  | OList items => mret (length items)
  | ODict entries => mret (size entries)
  | OArray a => mret (length a)
  | OFeatures _ => raise TypeError
  end.

(** [x[i]] on a list *)
Definition list_getitem (x : loc) (i : nat) : M loc :=
  o ← read x;
  match o with
  | OList items =>
      match items !! i with
      | Some c => mret c
      | None => raise IndexError
      end
  | _ => raise TypeError
  end.

(** [x.append(c)] *)
Definition list_append (x : loc) (c : loc) : M unit :=
  o ← read x;
  match o with
  | OList items => write x (OList (items ++ [c]))
  | _ => raise AttributeError
  end.

(** [d[k]] *)
Definition dict_getitem (d : loc) (k : string) : M pyval :=
  o ← read d;
  match o with
  | ODict entries =>
      match entries !! k with
      | Some v => mret v
      | None => raise KeyError
      end
  | _ => raise TypeError
  end.

(** [d[k] = v] *)
Definition dict_setitem (d : loc) (k : string) (v : pyval) : M unit :=
  o ← read d;
  match o with
  | ODict entries => write d (ODict (<[k := v]> entries))
  | _ => raise TypeError
  end.

(** [c.parameters] and [c.cluster_id] *)
Definition get_parameters (c : loc) : M (list float) :=
  o ← read c;
  match o with
  | OFeatures f => mret (parameters f)
  | _ => raise AttributeError
  end.

Definition get_cluster_id (c : loc) : M string :=
  o ← read c;
  match o with
  | OFeatures f => mret (cluster_id f)
  | _ => raise AttributeError
  end.

(** [ps[7]] on the parameter list, a value of its own *)
Definition parameter (ps : list float) (i : nat) : M float :=
  match ps !! i with
  | Some x => mret x
  | None => raise IndexError
  end.

(** [for i in items: body(i)] *)
Fixpoint for_in {A} (items : list A) (body : A → M unit) : M unit :=
  match items with
  | [] => mret ()
  | i :: rest => _ ← body i; for_in rest body
  end.

(** Lines 174-178. *)
Definition filterMetadata_body (metadata clusters : loc) (thresh : float)
    (filtered_metadata filtered_clusters : loc) (i : nat) : M unit :=
  c ← list_getitem metadata i;
  ps ← get_parameters c;
  density ← parameter ps 7;
  if float_gt density thresh then
    k ← get_cluster_id c;
    v ← dict_getitem clusters k;
    _ ← dict_setitem filtered_clusters k v;
    list_append filtered_metadata c
  else mret ().

(** Lines 151-183. *)
Definition filterMetadata (metadata clusters : loc) (thresh : float)
    : M (loc * loc) :=
  filtered_metadata ← alloc (OList []);
  filtered_clusters ← alloc (ODict ∅);
  n ← len metadata;
  _ ← for_in (seq 0 n)
        (filterMetadata_body metadata clusters thresh
           filtered_metadata filtered_clusters);
  mret (filtered_metadata, filtered_clusters).

(** The store [h] holds at [x] a list of references to the records [ms]. *)
Definition holds_records (h : store) (x : loc) (refs : list loc)
    (ms : list Features) : Prop :=
  h !! x = Some (OList refs) ∧
  Forall2 (λ r m, h !! r = Some (OFeatures m)) refs ms.

(** The store [h] holds at [x] the dict [d]. *)
Definition holds_dict (h : store) (x : loc) (d : gmap string pyval) : Prop :=
  h !! x = Some (ODict d).

(** [m], run from any store that extends [h0], ends in a store that still
    extends [h0], and what it returns satisfies [Q]. *)
Definition keeps (h0 : store) {A} (m : M A) (Q : A → Prop) : Prop :=
  ∀ h, h0 ⊆ h → h0 ⊆ (m h).2 ∧ ∀ a, (m h).1 = Ok a → Q a.

(** The loop of [filterMetadata] has reached a store [h] that extends [h0]
    and holds the results built so far: the references [refs] to the records
    [ms] in the list at [fm], the dict [d] at [fc], both objects new. *)
Record building (h0 h : store) (fm fc : loc) (refs : list loc)
    (ms : list Features) (d : gmap string pyval) : Prop := {
  building_extends : h0 ⊆ h;
  building_list : h !! fm = Some (OList refs);
  building_records : Forall2 (λ r m, h0 !! r = Some (OFeatures m)) refs ms;
  building_dict : h !! fc = Some (ODict d);
  building_new_list : h0 !! fm = None;
  building_new_dict : h0 !! fc = None;
  building_apart : fm ≠ fc
}.

End Store.

(** ** The ground-plane filter, from the specification *)
Module GroundPlaneFilter.

(** The replaceable strategy: which points of a given cloud are taken to
    lie on the ground. *)
Definition ground_model : Type := ndarray → row → bool.

(** Modelled from the spec: [remove_groundplane] of
    [modules.helperFunctions], which [filterPcl] calls and which is not
    among the sources. Section 4.1: the filter removes the points
    estimated to lie on the dominant ground surface, is deterministic, has
    no side effect and does not raise on the empty cloud; the ground model
    itself is a replaceable strategy. *)
Definition remove_groundplane (is_ground : ground_model) (pcl : ndarray)
    : ndarray :=
  filter (λ pt, is_ground pcl pt = false) pcl.

(** The height of a point: its z coordinate, column 2 of the row. *)
Definition height (pt : row) : option float := pt !! 2.

(** A height-based ground model judges a point by its height alone,
    whatever cloud it is part of. *)
Definition height_based (is_ground : ground_model) : Prop :=
  ∃ band : option float → bool, ∀ pcl pt, is_ground pcl pt = band (height pt).

(** A height band: the ground is everything not above [z_thresh]. *)
Definition below (z_thresh : float) : ground_model := λ _ pt,
  match height pt with
  | Some z => negb (float_gt z z_thresh)
  | None => true
  end.

(** A ground model that is not height-based: the ground is the lowest
    height met in the cloud at hand. *)
Definition lowest (pcl : ndarray) : option float :=
  foldr (λ pt low,
           match height pt, low with
           | Some z, Some l => Some (if PrimFloat.ltb z l then z else l)
           | Some z, None => Some z
           | None, _ => low
           end) None pcl.

Definition lowest_band : ground_model := λ pcl pt,
  match height pt, lowest pcl with
  | Some z, Some l => negb (float_gt z l)
  | _, _ => true
  end.

End GroundPlaneFilter.

(** ** The properties the specification states, as predicates on the code *)


(** A record passes the density test of line 176. *)
Definition dense (thresh : float) (c : Features) : bool :=
  match parameters c !! 7 with
  | Some density => float_gt density thresh
  | None => false
  end.

(** [b.dimensions] give a zero or negative volume. *)
Definition degenerate (b : Label.t) : Prop :=
  PrimFloat.leb (Label.volume b) 0%float = true.

Section Stated.

Variable extract_cluster_parameters : ndarray → result (list float).

Let extract := computeClusterMetadata extract_cluster_parameters.



(** Section 4.3, computation: for a non-empty cluster, feature 7 is the
    point count divided by the volume of the box. *)
Definition density_from_box : Prop :=
  ∀ a bbox frame, a ≠ [] →
    ∃ r, extract (PyArray a) bbox frame = Ok r ∧
         parameters r !! 7
         = Some (float_of_count (cnt r) / Label.volume bbox)%float.

(** Section 8, density monotonicity: same cluster, larger box, strictly
    smaller feature 7. *)
Definition density_decreases_with_volume : Prop :=
  ∀ cluster b1 b2 frame r1 r2 d1 d2,
    PrimFloat.ltb (Label.volume b1) (Label.volume b2) = true →
    extract cluster b1 frame = Ok r1 → extract cluster b2 frame = Ok r2 →
    parameters r1 !! 7 = Some d1 → parameters r2 !! 7 = Some d2 →
    PrimFloat.ltb d2 d1 = true.

(** Section 7: a box of zero or negative volume is refused. *)
Definition refuses_degenerate_boxes : Prop :=
  ∀ cluster bbox frame, degenerate bbox → raises (extract cluster bbox frame).

End Stated.

(** Section 4.2, output policy: the entry of a box is its cluster, or
    absent when the cluster has fewer than [thresh] points. *)
Definition cluster_entry (get_pts_in_bbox : ndarray → Label.t → ndarray)
    (pcl : ndarray) (thresh : Z) (b : Label.t) : option ndarray :=
  let cluster := get_pts_in_bbox pcl b in
  if bool_decide (Z.of_nat (length cluster) < thresh)%Z then None
  else Some cluster.

(** The box has a cluster in the mapping, and it is not absent. *)
Definition present (clusters : gmap string (option ndarray)) (b : Label.t)
    : bool :=
  match clusters !! Label.id b with
  | Some (Some _) => true
  | _ => false
  end.

(** Section 4.5: the records of a frame before the density filter, one per
    box with a cluster of at least [clusterByBBox_thresh] points among the
    ground-filtered points, in box order. *)
Definition frame_records (remove_groundplane : ndarray → ndarray)
    (get_pts_in_bbox : ndarray → Label.t → ndarray)
    (extract_cluster_parameters : ndarray → result (list float))
    (frame : Frame) (frame_no : Z) : result (list Features) :=
  let pcl := filterPcl remove_groundplane (frame_pcl frame) in
  mapM (λ b, computeClusterMetadata extract_cluster_parameters
               (PyArray (get_pts_in_bbox pcl b)) b frame_no)
       (filter (λ b, cluster_entry get_pts_in_bbox pcl clusterByBBox_thresh b
                     ≠ None)
               (frame_bboxes frame)).

(** ** The counts clusterByBBox logs *)

(** A dict key of [clusterByBBox] is a [label.id], a string, which is never
    [None]. *)
Definition key_is_not_None (k : string) : bool := true.

(** Line 98, "bbox initial count": [len(bboxes)]. *)
Definition clusterByBBox_initial_count (bboxes : list Label.t) : nat :=
  length bboxes.

(** Line 119, "bbox final count":
    [len([o for o in obj_pcls if o is not None])]. Iterating a dict yields
    its keys. *)
Definition clusterByBBox_final_count
    (obj_pcls : gmap string (option ndarray)) : nat :=
  length (filter (λ o, key_is_not_None o = true) (map_to_list obj_pcls).*1).

(** The number of clusters that are not [None], which the mapping holds. *)
Definition clusters_kept (obj_pcls : gmap string (option ndarray)) : nat :=
  size (filter (λ kv, kv.2 ≠ None) obj_pcls).

(** ** run, checkDataFile and saveClusterMetadata

    The files under [dir_save] are a finite map from path to text. A frame of
    the record file is taken as decoded ([waymo_converter.create_frame]), and
    [record_len], the number of records counted in [data_file], is the number
    of frames the loop goes through, both being read from the same file.
    The method [self.parseFrame] is the one of the class at hand, passed as
    [parse]: it ends in an exception or in the document it hands to
    [saveClusterMetadata]. [100 * i / record_len] is the integer division of
    Python 2, the dialect of the file ([iteritems], line 345). *)
Module Run.

(** What [run] changes: the files, and the [progress] list of line 263. *)
Record state : Type := mk {
  files : gmap string string;
  progress : list Z
}.

Section Methods.

Variable dir_save : string.
(** The document type of the class, and [json.dump] of it. *)
Context {D : Type}.
Variable dump : D → string.
Variable parse : Frame → Z → result (Saved D).

(** ['%s/%s.json' % (self.dir_save, name)], lines 195 and 241. *)
Definition json_file (name : string) : string :=
  dir_save +:+ "/" +:+ name +:+ ".json".

(** Lines 232-244. *)
Definition checkDataFile (frame : Frame) (fs : gmap string string) : bool :=
  let file := json_file (context_name frame) in
  bool_decide (is_Some (fs !! file)).

(** Lines 185-202: the file is opened for writing and the document dumped
    into it. *)
Definition saveClusterMetadata (metadata : D) (name : string)
    (fs : gmap string string) : gmap string string :=
  let filename := json_file name in
  <[filename := dump metadata]> fs.

(** Line 268: [frame.context.name = '%s-%i' % (frame.context.name, i)]. *)
Definition with_index (frame : Frame) (i : nat) : Frame :=
  mkFrame (frame_pcl frame) (frame_bboxes frame)
    (context_name frame +:+ "-" +:+ pretty i).

(** Line 272: [int(100 * i / record_len)]. *)
Definition percent (i record_len : nat) : Z :=
  ((100 * Z.of_nat i) `div` Z.of_nat record_len)%Z.

(** Lines 273-277: the status update, once per multiple of ten. *)
Definition status_update (percent : Z) (progress : list Z) : list Z :=
  if bool_decide (percent `mod` 10 = 0)%Z && bool_decide (percent ∉ progress)
  then progress ++ [percent]
  else progress.

(** The status updates made for the frames below index [i], out of
    [record_len]: the multiples of ten among their percentages, in increasing
    order. *)
Definition updates_below (record_len i : nat) (progress : list Z) : Prop :=
  StronglySorted Z.lt progress ∧
  ∀ p, p ∈ progress ↔
       (p `mod` 10 = 0)%Z ∧ ∃ j, j < i ∧ percent j record_len = p.

(** Lines 266-287: one turn of the loop, on the scan of index [i]. *)
Definition run_body (record_len : nat) (overwrite : bool) (i : nat)
    (scan : Frame) (st : state) : result unit * state :=
  let frame := with_index scan i in
  let progress := status_update (percent i record_len) (progress st) in
  if checkDataFile frame (files st) && negb overwrite then
    (Ok (), mk (files st) progress)
  else
    match parse frame (Z.of_nat i) with
    | Ok saved =>
        (Ok (), mk (saveClusterMetadata (saved_metadata saved)
                      (saved_name saved) (files st)) progress)
    | Raise e => (Raise e, mk (files st) progress)
    end.

(** [for i, scan in enumerate(tfrecord)], from index [i] on. *)
Fixpoint run_loop (record_len : nat) (overwrite : bool) (i : nat)
    (scans : list Frame) (st : state) : result unit * state :=
  match scans with
  | [] => (Ok (), st)
  | scan :: rest =>
      match run_body record_len overwrite i scan st with
      | (Ok _, st') => run_loop record_len overwrite (S i) rest st'
      | (Raise e, st') => (Raise e, st')
      end
  end.

(** Lines 246-292. *)
Definition run (tfrecord : list Frame) (overwrite : bool)
    (fs : gmap string string) : result unit * state :=
  let record_len := length tfrecord in
  let progress := [] in
  run_loop record_len overwrite 0 tfrecord (mk fs progress).

(** Lines 275-277 and 289-290: the percentages of the STATUS UPDATE lines
    a run has logged when it ends. Inside the loop a line is logged with
    every percentage appended to [progress], and with no other (lines 274
    and 275 stand under the same test); the line after the loop, with its
    100, is logged once the loop has ended without an exception. *)
Definition status_updates (out : result unit * state) : list Z :=
  match out.1 with
  | Ok _ => progress out.2 ++ [100%Z]
  | Raise _ => progress out.2
  end.

(** Both [parseFrame] methods pass [frame.context.name] on to
    [saveClusterMetadata] (lines 228 and 391). *)
Definition saves_under_frame_name : Prop :=
  ∀ frame i saved,
    parse frame i = Ok saved → saved_name saved = context_name frame.

(** The file of the frame of index [i] is there. *)
Definition parsed (fs : gmap string string) (i : nat) (scan : Frame) : Prop :=
  checkDataFile (with_index scan i) fs = true.

End Methods.

End Run.

(** ** Sample inputs *)
Module Sample.

Definition pt (x y z : float) : row := [x; y; z; 1%float].

Definition unit_box : Label.t :=
  Label.mk "a" 1 (0, 0, 0)%float (1, 1, 1)%float 0%float.
Definition big_box : Label.t :=
  Label.mk "a" 1 (0, 0, 0)%float (2, 2, 2)%float 0%float.
Definition flat_box : Label.t :=
  Label.mk "a" 1 (0, 0, 0)%float (0, 0, 0)%float 0%float.
Definition other_box : Label.t :=
  Label.mk "b" 2 (5, 5, 0)%float (1, 2, 1)%float 0%float.

(** Six points above the ground and one on it. *)
Definition cloud : ndarray :=
  [pt 0 0 0; pt 0.25 0 0; pt 0 0.25 0; pt 0.25 0.25 0; pt 0.5 0 0;
   pt 0.5 0.25 0; pt 3 3 (-2)]%float.

(** A stand-in for the box membership test: box "a" holds the points with
    x below 1, every other box holds none. *)
Definition near (p : row) : bool :=
  match p !! 0 with
  | Some x => PrimFloat.ltb x 1%float
  | None => false
  end.

Definition pts_in (pcl : ndarray) (b : Label.t) : ndarray :=
  if bool_decide (Label.id b = "a")
  then filter (λ p, near p = true) pcl
  else [].

(** A stand-in for the parameter extraction: eight values, the last one
    the number of points per unit of volume of a box of volume [vol]. *)
Definition params (vol : float) (a : ndarray) : result (list float) :=
  Ok [0; 0; 0; 0; 0; 0; 0; float_of_count (length a) / vol]%float.

(** A height band for the ground: everything not above z = -1. *)
Definition ground : ndarray → ndarray :=
  GroundPlaneFilter.remove_groundplane (GroundPlaneFilter.below (-1)%float).

Definition record (k : string) (density : float) : Features :=
  mkFeatures k 0 1 6 [0; 0; 0; 0; 0; 0; 0; density]%float.

Definition frame : Frame := mkFrame cloud [unit_box; other_box] "seg-0".

(** A second box with the id of [unit_box], of another type, and a stand-in
    membership test that finds points in boxes of type 1 only. *)
Definition shadow_box : Label.t :=
  Label.mk "a" 2 (9, 9, 0)%float (1, 1, 1)%float 0%float.

Definition pts_of_type (pcl : ndarray) (b : Label.t) : ndarray :=
  if bool_decide (Label.type b = 1%Z)
  then filter (λ p, near p = true) pcl
  else [].

(** Two records, the first one dense enough for the default threshold, and
    a mapping that has the cluster of the first only. *)
Definition metadata : list Features := [record "a" 25; record "b" 12.5].
Definition clusters : gmap string ndarray := {[ "a" := cloud ]}.

(** A store with two records, a list of them, an array and a dict. *)
Definition store : Store.store :=
  {[ 1%positive := Store.OFeatures (record "a" 25);
     2%positive := Store.OFeatures (record "b" 12.5);
     3%positive := Store.OList [1%positive; 2%positive];
     4%positive := Store.OArray cloud;
     5%positive := Store.ODict {[ "a" := Store.PRef 4%positive;
                                  "b" := Store.PNone ]} ]}.

End Sample.

(** * Proofs *)

(** ** Results *)

Lemma bind_Ok_inv {A B} (m : result A) (f : A → result B) (b : B) :
  m ≫= f = Ok b → ∃ a, m = Ok a ∧ f a = Ok b.
Proof. destruct m as [a|e]; simpl; [eauto | discriminate]. Qed.

Lemma fmap_Ok_inv {A B} (f : A → B) (m : result A) (b : B) :
  f <$> m = Ok b → ∃ a, m = Ok a ∧ b = f a.
Proof. destruct m as [a|e]; simpl; [intros [= <-]; eauto | discriminate]. Qed.

Lemma returns_or_raises {A} (r : result A) : returns r ∨ raises r.
Proof. destruct r as [a|e]; [left | right]; eexists; reflexivity. Qed.

Lemma raises_not_returns {A} (r : result A) : raises r → ¬ returns r.
Proof. intros [e ->] [a [=]]. Qed.

Lemma list_getitem_middle {A} (l1 l2 : list A) (x : A) :
  list_getitem (l1 ++ x :: l2) (length l1) = Ok x.
Proof.
  unfold list_getitem. rewrite list_lookup_middle by reflexivity. reflexivity.
Qed.

Lemma dict_getitem_Some {V} (d : gmap string V) (k : string) (v : V) :
  d !! k = Some v → dict_getitem d k = Ok v.
Proof. unfold dict_getitem. intros ->. reflexivity. Qed.

(** ** float64 comparisons *)

Lemma SFcompare_refl_not_Lt (s : SpecFloat.spec_float) :
  SpecFloat.SFcompare s s ≠ Some Lt.
Proof.
  destruct s as [[]|[]| |[] m e]; simpl; try discriminate;
    rewrite Z.compare_refl, ?Pos.compare_refl; simpl; discriminate.
Qed.

(** [d < d] is false for every float64 value, NaN included. *)
Lemma float_ltb_irrefl (d : float) : PrimFloat.ltb d d = false.
Proof.
  rewrite FloatAxioms.ltb_spec. unfold SpecFloat.SFltb.
  pose proof (SFcompare_refl_not_Lt (Prim2SF d)) as H.
  destruct (SpecFloat.SFcompare (Prim2SF d) (Prim2SF d)) as [[]|]; congruence.
Qed.

(** ** computeClusterMetadata *)

Section ComputeClusterMetadata.

Variable extract_cluster_parameters : ndarray → result (list float).

Let extract := computeClusterMetadata extract_cluster_parameters.

(** On an array the outcome is the helper's: its exception, or a record
    with the box's id and type, the frame number, the row count of the
    array and the helper's parameters. *)
Lemma computeClusterMetadata_array a bbox frame :
  extract (PyArray a) bbox frame
  = mkFeatures (Label.id bbox) frame (Label.type bbox) (length a)
      <$> extract_cluster_parameters a.
Proof.
  unfold extract, computeClusterMetadata; simpl.
  destruct (extract_cluster_parameters a); reflexivity.
Qed.

Lemma computeClusterMetadata_None bbox frame :
  extract PyNone bbox frame = Raise TypeError.
Proof. reflexivity. Qed.

Lemma computeClusterMetadata_no_shape cluster bbox frame :
  is_not_None cluster = true → has_shape cluster = false →
  extract cluster bbox frame = Raise AttributeError.
Proof. destruct cluster; simpl; intros; (discriminate || reflexivity). Qed.

(** A record comes out only for an array on which the helper returns. *)
Lemma computeClusterMetadata_Ok_inv cluster bbox frame r :
  extract cluster bbox frame = Ok r →
  ∃ a ps, cluster = PyArray a ∧ extract_cluster_parameters a = Ok ps ∧
          r = mkFeatures (Label.id bbox) frame (Label.type bbox) (length a) ps.
Proof.
  destruct cluster as [|rows|rows|a]; try discriminate.
  rewrite computeClusterMetadata_array.
  intros (ps & Hps & ->)%fmap_Ok_inv. eauto.
Qed.

(** Only [bbox.id] and [bbox.type] are read from the box. *)
Lemma computeClusterMetadata_box cluster b1 b2 frame :
  Label.id b1 = Label.id b2 → Label.type b1 = Label.type b2 →
  extract cluster b1 frame = extract cluster b2 frame.
Proof.
  intros Hid Hty. unfold extract, computeClusterMetadata.
  rewrite Hid, Hty. reflexivity.
Qed.

(** The parameters of the record do not depend on the box at all. *)
Lemma computeClusterMetadata_parameters cluster b1 b2 frame :
  parameters <$> extract cluster b1 frame
  = parameters <$> extract cluster b2 frame.
Proof.
  destruct cluster as [|rows|rows|a]; try reflexivity.
  rewrite !computeClusterMetadata_array.
  destruct (extract_cluster_parameters a); reflexivity.
Qed.

End ComputeClusterMetadata.

(** C10. [computeClusterMetadata] reads the point count off the [cluster]
    argument itself ([cluster.shape[0]]), not off the converted array: any
    argument that is not [None] and has no [shape] attribute, a plain list
    for one, makes the call raise AttributeError; no record is returned. *)
Theorem computeClusterMetadata_shapeless_raises
    (extract_cluster_parameters : ndarray → result (list float))
    (cluster : pyobj) (bbox : Label.t) (frame : Z) :
  cluster ≠ PyNone → has_shape cluster = false →
  computeClusterMetadata extract_cluster_parameters cluster bbox frame
  = Raise AttributeError.
Proof.
  intros Hnone Hshape. apply computeClusterMetadata_no_shape; [|exact Hshape].
  destruct cluster; [contradiction | reflexivity..].
Qed.

Lemma computeClusterMetadata_shapeless_raises_witness :
  PyList Sample.cloud ≠ PyNone ∧ has_shape (PyList Sample.cloud) = false ∧
  computeClusterMetadata (Sample.params 1) (PyList Sample.cloud)
    Sample.unit_box 0 = Raise AttributeError.
Proof.
  split; [discriminate|]. split; [reflexivity|].
  apply (computeClusterMetadata_shapeless_raises (Sample.params 1)
           (PyList Sample.cloud) Sample.unit_box 0); [discriminate | reflexivity].
Defined.



(** C4, as stated, fails: whatever the helper, feature 7 cannot be the point
    count over the box volume, and it cannot decrease as the box grows,
    because the same cluster with two boxes gives the same parameters. *)
Lemma density_not_from_box :
  (¬ ∃ ecp, density_from_box ecp) ∧
  (¬ ∃ ecp, (∃ a ps d, ecp a = Ok ps ∧ ps !! 7 = Some d) ∧
            density_decreases_with_volume ecp).
Proof.
  split.
  - intros [ecp H].
    destruct (H [Sample.pt 0 0 0] Sample.unit_box 0%Z ltac:(discriminate))
      as (r1 & H1 & D1).
    destruct (H [Sample.pt 0 0 0] Sample.big_box 0%Z ltac:(discriminate))
      as (r2 & H2 & D2).
    apply computeClusterMetadata_Ok_inv in H1 as (a1 & p1 & [= <-] & E1 & ->).
    apply computeClusterMetadata_Ok_inv in H2 as (a2 & p2 & [= <-] & E2 & ->).
    simpl in *. rewrite E1 in E2. injection E2 as <-. rewrite D1 in D2.
    apply (f_equal (λ o, match o with
                         | Some d => PrimFloat.ltb 0.5 d
                         | None => false
                         end)) in D2.
    vm_compute in D2. discriminate D2.
  - intros (ecp & (a & ps & d & Hps & Hd) & H).
    assert (PrimFloat.ltb d d = true) as Hlt.
    { apply (H (PyArray a) Sample.unit_box Sample.big_box 0%Z
               (mkFeatures "a" 0 1 (length a) ps)
               (mkFeatures "a" 0 1 (length a) ps) d d);
        [reflexivity | | | exact Hd | exact Hd];
        rewrite computeClusterMetadata_array, Hps; reflexivity. }
    rewrite float_ltb_irrefl in Hlt. discriminate Hlt.
Qed.

(** C4, amended. The parameter vector of the record, feature 7 included, is
    what [extract_cluster_parameters] computes from the points of the cluster
    alone: the box is not passed to it, so for a fixed cluster the vector is
    the same for every box, whatever its dimensions. *)
Theorem computeClusterMetadata_parameters_from_cluster
    (extract_cluster_parameters : ndarray → result (list float))
    (frame : Z) :
  let extract := computeClusterMetadata extract_cluster_parameters in
  (∀ a bbox, parameters <$> extract (PyArray a) bbox frame
             = extract_cluster_parameters a) ∧
  (∀ cluster b1 b2, parameters <$> extract cluster b1 frame
                    = parameters <$> extract cluster b2 frame).
Proof.
  intros extract. split.
  - intros a bbox. unfold extract. rewrite computeClusterMetadata_array.
    destruct (extract_cluster_parameters a); reflexivity.
  - intros cluster b1 b2. apply computeClusterMetadata_parameters.
Qed.

(** C6, as stated, fails: an extractor that returns any record at all
    returns one for a box of volume zero as well. *)
Lemma degenerate_box_not_refused :
  ¬ ∃ ecp, (∃ cluster bbox frame,
              returns (computeClusterMetadata ecp cluster bbox frame)) ∧
           refuses_degenerate_boxes ecp.
Proof.
  intros (ecp & (cluster & bbox & frame & [r Hr]) & H).
  pose (flat := Label.mk (Label.id bbox) (Label.type bbox)
                  (Label.center bbox) (0, 0, 0)%float (Label.heading bbox)).
  apply (raises_not_returns (computeClusterMetadata ecp cluster flat frame)).
  - apply H. reflexivity.
  - exists r. rewrite <- Hr. apply computeClusterMetadata_box; reflexivity.
Qed.

(** C6, amended. [computeClusterMetadata] reads [bbox.id] and [bbox.type]
    and nothing else of the box: two boxes that agree on these give the same
    outcome, record or exception, whatever their dimensions, so a box of zero
    or negative volume is treated as any other. *)
Theorem computeClusterMetadata_ignores_dimensions
    (extract_cluster_parameters : ndarray → result (list float))
    (cluster : pyobj) (b1 b2 : Label.t) (frame : Z) :
  Label.id b1 = Label.id b2 → Label.type b1 = Label.type b2 →
  computeClusterMetadata extract_cluster_parameters cluster b1 frame
  = computeClusterMetadata extract_cluster_parameters cluster b2 frame.
Proof. apply computeClusterMetadata_box. Qed.

Lemma computeClusterMetadata_ignores_dimensions_witness :
  degenerate Sample.flat_box ∧
  computeClusterMetadata (Sample.params 1) (PyArray Sample.cloud)
    Sample.unit_box 7
  = computeClusterMetadata (Sample.params 1) (PyArray Sample.cloud)
      Sample.flat_box 7.
Proof.
  split; [reflexivity|].
  apply (computeClusterMetadata_ignores_dimensions (Sample.params 1)
           (PyArray Sample.cloud) Sample.unit_box Sample.flat_box 7);
    reflexivity.
Defined.

(** ** clusterByBBox *)

Section ClusterByBBox.

Variable get_pts_in_bbox : ndarray → Label.t → ndarray.
Variable pcl : ndarray.
Variable thresh : Z.

Let cluster := clusterByBBox get_pts_in_bbox pcl.
Let entry := cluster_entry get_pts_in_bbox pcl thresh.

Lemma clusterByBBox_body_insert obj_pcls label :
  clusterByBBox_body get_pts_in_bbox pcl thresh obj_pcls label
  = <[Label.id label := entry label]> obj_pcls.
Proof.
  unfold clusterByBBox_body, entry, cluster_entry.
  repeat case_bool_decide; (reflexivity || lia).
Qed.

Lemma clusterByBBox_snoc bboxes label :
  cluster (bboxes ++ [label]) thresh
  = <[Label.id label := entry label]> (cluster bboxes thresh).
Proof.
  unfold cluster, clusterByBBox. rewrite foldl_app. simpl.
  apply clusterByBBox_body_insert.
Qed.

(** Every box id has an entry, and no other key has. *)
Lemma clusterByBBox_dom bboxes :
  dom (cluster bboxes thresh) = list_to_set (Label.id <$> bboxes).
Proof.
  induction bboxes as [|label bboxes IH] using rev_ind; [reflexivity|].
  rewrite clusterByBBox_snoc, dom_insert_L, IH, fmap_app, list_to_set_app_L.
  change (Label.id <$> [label]) with [Label.id label].
  rewrite list_to_set_singleton_L. apply (comm_L (∪)).
Qed.

(** The entry of a key is the one of the last box with that id. *)
Lemma clusterByBBox_lookup_last bboxes label rest :
  Label.id label ∉ Label.id <$> rest →
  cluster (bboxes ++ label :: rest) thresh !! Label.id label
  = Some (entry label).
Proof.
  induction rest as [|b rest IH] using rev_ind; intros Hnotin.
  - rewrite clusterByBBox_snoc. apply lookup_insert_eq.
  - rewrite fmap_app in Hnotin. simpl in Hnotin.
    apply not_elem_of_app in Hnotin as [Hrest Hb].
    apply not_elem_of_cons in Hb as [Hb _].
    replace (bboxes ++ label :: rest ++ [b])
      with ((bboxes ++ label :: rest) ++ [b]) by (rewrite <- app_assoc; reflexivity).
    rewrite clusterByBBox_snoc, lookup_insert_ne by congruence.
    apply IH, Hrest.
Qed.

Lemma clusterByBBox_lookup bboxes label :
  NoDup (Label.id <$> bboxes) → label ∈ bboxes →
  cluster bboxes thresh !! Label.id label = Some (entry label).
Proof.
  intros Hnd (pre & rest & ->)%list_elem_of_split.
  apply clusterByBBox_lookup_last.
  rewrite fmap_app in Hnd. apply NoDup_app in Hnd as (_ & _ & Hnd).
  rewrite fmap_cons in Hnd. apply NoDup_cons in Hnd as [Hnotin _].
  exact Hnotin.
Qed.

End ClusterByBBox.

(** C5. For every cloud and every sequence of boxes with distinct ids,
    [clusterByBBox] returns a mapping with an entry for each box id and for
    nothing else; the entry of a box is [None], not an empty cluster,
    exactly when fewer than [thresh] of the cloud's points lie in the box,
    and the cluster of those points otherwise. The function is total:
    nothing is raised. *)
Theorem clusterByBBox_entries
    (get_pts_in_bbox : ndarray → Label.t → ndarray)
    (pcl : ndarray) (bboxes : list Label.t) (thresh : Z) :
  NoDup (Label.id <$> bboxes) →
  let obj_pcls := clusterByBBox get_pts_in_bbox pcl bboxes thresh in
  dom obj_pcls = list_to_set (Label.id <$> bboxes) ∧
  ∀ label, label ∈ bboxes →
    let cluster := get_pts_in_bbox pcl label in
    (obj_pcls !! Label.id label = Some None
     ↔ (Z.of_nat (length cluster) < thresh)%Z) ∧
    (obj_pcls !! Label.id label = Some (Some cluster)
     ↔ (thresh ≤ Z.of_nat (length cluster))%Z).
Proof.
  intros Hnd obj_pcls. split; [apply clusterByBBox_dom|].
  intros label Hin cluster. unfold obj_pcls.
  rewrite (clusterByBBox_lookup _ _ _ _ _ Hnd Hin).
  unfold cluster_entry. fold cluster.
  case_bool_decide; split; split; intros; try (discriminate || reflexivity || lia).
Qed.

Lemma clusterByBBox_entries_witness :
  let obj_pcls :=
    clusterByBBox Sample.pts_in Sample.cloud
      [Sample.unit_box; Sample.other_box] clusterByBBox_thresh in
  obj_pcls !! "a" = Some (Some (Sample.pts_in Sample.cloud Sample.unit_box)) ∧
  obj_pcls !! "b" = Some None.
Proof.
  assert (NoDup (Label.id <$> [Sample.unit_box; Sample.other_box])) as Hnd.
  { apply (bool_decide_unpack _). vm_compute. exact I. }
  destruct (clusterByBBox_entries Sample.pts_in Sample.cloud
              [Sample.unit_box; Sample.other_box] clusterByBBox_thresh Hnd)
    as [_ H].
  split.
  - apply (H Sample.unit_box); [apply list_elem_of_here|].
    vm_compute. discriminate.
  - apply (H Sample.other_box);
      [apply list_elem_of_further, list_elem_of_here|].
    vm_compute. reflexivity.
Defined.

(** ** filterPcl over the specified ground-plane filter *)

Lemma fmap_pt_list (pcl : list row) : pt_list <$> pcl = pcl.
Proof.
  induction pcl as [|pt pcl IH]; [reflexivity|].
  rewrite fmap_cons, IH. reflexivity.
Qed.

Lemma filterPcl_remove_groundplane is_ground (pcl : list row) :
  filterPcl (GroundPlaneFilter.remove_groundplane is_ground) pcl
  = filter (λ pt, is_ground pcl pt = false) pcl.
Proof.
  unfold filterPcl, GroundPlaneFilter.remove_groundplane.
  rewrite fmap_pt_list. reflexivity.
Qed.

Lemma filterPcl_height_band is_ground band (pcl : list row) :
  (∀ cloud pt, is_ground cloud pt = band (GroundPlaneFilter.height pt)) →
  filterPcl (GroundPlaneFilter.remove_groundplane is_ground) pcl
  = filter (λ pt, band (GroundPlaneFilter.height pt) = false) pcl.
Proof.
  intros Hband. rewrite filterPcl_remove_groundplane.
  apply list_filter_iff. intros pt. rewrite Hband. reflexivity.
Qed.

(** C7. Over the ground-plane filter the specification describes, with any
    ground model, the output of [filterPcl] is a sub-multiset of its input,
    in the input's order, every output point being an input point, and the
    empty cloud gives the empty cloud. *)
Theorem filterPcl_submultiset
    (is_ground : GroundPlaneFilter.ground_model) (pcl : list row) :
  let filter_pcl :=
    filterPcl (GroundPlaneFilter.remove_groundplane is_ground) in
  filter_pcl pcl ⊆+ pcl ∧
  filter_pcl pcl `sublist_of` pcl ∧
  (∀ pt, pt ∈ filter_pcl pcl → pt ∈ pcl) ∧
  filter_pcl [] = [].
Proof.
  intros filter_pcl. unfold filter_pcl.
  rewrite filterPcl_remove_groundplane.
  pose proof (sublist_filter (λ pt, is_ground pcl pt = false) pcl) as Hsub.
  split; [apply sublist_submseteq, Hsub|].
  split; [exact Hsub|].
  split; [|reflexivity].
  intros pt [_ Hin]%list_elem_of_filter. exact Hin.
Qed.

(** C8. Over the ground-plane filter the specification describes, with a
    height-based ground model, filtering the output of [filterPcl] again
    removes nothing more. *)
Theorem filterPcl_idempotent
    (is_ground : GroundPlaneFilter.ground_model) (pcl : list row) :
  GroundPlaneFilter.height_based is_ground →
  let filter_pcl :=
    filterPcl (GroundPlaneFilter.remove_groundplane is_ground) in
  filter_pcl (filter_pcl pcl) = filter_pcl pcl.
Proof.
  intros [band Hband] filter_pcl. unfold filter_pcl.
  rewrite !(filterPcl_height_band is_ground band) by exact Hband.
  apply list_filter_filter_l. intros pt Hpt. exact Hpt.
Qed.

Lemma filterPcl_idempotent_witness :
  let filter_pcl :=
    filterPcl (GroundPlaneFilter.remove_groundplane
                 (GroundPlaneFilter.below (-1)%float)) in
  filter_pcl Sample.cloud = take 6 Sample.cloud ∧
  filter_pcl (filter_pcl Sample.cloud) = filter_pcl Sample.cloud.
Proof.
  split; [vm_compute; reflexivity|].
  apply (filterPcl_idempotent (GroundPlaneFilter.below (-1)%float)
           Sample.cloud).
  exists (λ h, match h with
               | Some z => negb (float_gt z (-1)%float)
               | None => true
               end).
  intros cloud pt. reflexivity.
Defined.

(** The height-based hypothesis is needed: when the ground is the lowest
    height of the cloud at hand, a second pass removes the next layer. *)
Example filterPcl_lowest_band_not_idempotent :
  let filter_pcl :=
    filterPcl (GroundPlaneFilter.remove_groundplane
                 GroundPlaneFilter.lowest_band) in
  let pcl := [Sample.pt 0 0 0; Sample.pt 3 3 (-2)]%float in
  filter_pcl pcl = [Sample.pt 0 0 0]%float ∧ filter_pcl (filter_pcl pcl) = [].
Proof. vm_compute. split; reflexivity. Qed.

(** ** filterMetadata *)

Section FilterMetadata.

Context {V : Type}.
Variable clusters : gmap string V.
Variable thresh : float.

Let keep (c : Features) : Prop := dense thresh c = true.

(** One turn of the loop, at the index of the record [c]. *)
Lemma filterMetadata_body_at (done todo : list Features) (c : Features)
    (filtered_metadata : list Features) (filtered_clusters : gmap string V) :
  filterMetadata_body (done ++ c :: todo) clusters thresh
    (filtered_metadata, filtered_clusters) (length done)
  = density ← list_getitem (parameters c) 7;
    if float_gt density thresh then
      v ← dict_getitem clusters (cluster_id c);
      Ok (filtered_metadata ++ [c], <[cluster_id c := v]> filtered_clusters)
    else Ok (filtered_metadata, filtered_clusters).
Proof.
  unfold filterMetadata_body. rewrite list_getitem_middle. reflexivity.
Qed.

(** The loop from index [length done] on, over the records not yet seen:
    it returns when every record has a feature 7 and every dense record has
    its id in [clusters]. *)
Lemma filterMetadata_loop (todo done filtered_metadata : list Features)
    (filtered_clusters : gmap string V) :
  Forall (λ c, 8 ≤ length (parameters c)) todo →
  Forall (λ c, keep c → is_Some (clusters !! cluster_id c)) todo →
  ∃ fc,
    for_each (filterMetadata_body (done ++ todo) clusters thresh)
      (seq (length done) (length todo)) (filtered_metadata, filtered_clusters)
    = Ok (filtered_metadata ++ filter keep todo, fc) ∧
    (∀ k, fc !! k = if decide (k ∈ cluster_id <$> filter keep todo)
                    then clusters !! k else filtered_clusters !! k).
Proof.
  revert done filtered_metadata filtered_clusters.
  induction todo as [|c todo IH]; intros done fm fc Hlen Hkey.
  - exists fc. simpl. rewrite app_nil_r. split; [reflexivity|].
    intros k. reflexivity.
  - apply Forall_cons in Hlen as [Hc Hlen]. apply Forall_cons in Hkey as [Hk Hkey].
    destruct (lookup_lt_is_Some_2 (parameters c) 7 ltac:(lia)) as [d Hd].
    assert (dense thresh c = float_gt d thresh) as Hdense
      by (unfold dense; rewrite Hd; reflexivity).
    specialize (IH (done ++ [c])). rewrite <- app_assoc in IH. simpl in IH.
    rewrite length_app, Nat.add_1_r in IH.
    cbn [length seq for_each]. rewrite filterMetadata_body_at.
    replace (list_getitem (parameters c) 7) with (Ok d)
      by (unfold list_getitem; rewrite Hd; reflexivity).
    cbn [mbind result_bind]. rewrite filter_cons.
    destruct (float_gt d thresh) eqn:Hgt.
    + destruct (Hk Hdense) as [v Hv]. rewrite (dict_getitem_Some _ _ _ Hv).
      cbn [mbind result_bind].
      destruct (IH (fm ++ [c]) (<[cluster_id c := v]> fc) Hlen Hkey)
        as (fc' & Hrun & Hfc').
      exists fc'. rewrite Hrun, decide_True by exact Hdense.
      rewrite <- app_assoc. split; [reflexivity|].
      intros k. rewrite Hfc', fmap_cons.
      destruct (decide (k ∈ cluster_id <$> filter keep todo)) as [Hin|Hnin].
      * rewrite decide_True; [reflexivity | apply list_elem_of_further, Hin].
      * destruct (decide (k = cluster_id c)) as [->|Hne].
        -- rewrite lookup_insert_eq, decide_True;
             [symmetry; exact Hv | apply list_elem_of_here].
        -- rewrite lookup_insert_ne by congruence.
           rewrite decide_False; [reflexivity|].
           intros [Heq|Hin]%elem_of_cons; [congruence | contradiction].
    + destruct (IH fm fc Hlen Hkey) as (fc' & Hrun & Hfc').
      cbn [mbind result_bind].
      exists fc'. rewrite Hrun, decide_False by (unfold keep; congruence).
      split; [reflexivity | exact Hfc'].
Qed.

(** Conversely, the loop returns only if every record has a feature 7 and
    every dense record has its id in [clusters]. *)
Lemma filterMetadata_loop_inv (todo done : list Features)
    (acc out : list Features * gmap string V) :
  for_each (filterMetadata_body (done ++ todo) clusters thresh)
    (seq (length done) (length todo)) acc = Ok out →
  Forall (λ c, 8 ≤ length (parameters c)) todo ∧
  Forall (λ c, keep c → is_Some (clusters !! cluster_id c)) todo.
Proof.
  revert done acc. induction todo as [|c todo IH]; intros done [fm fc] Hrun.
  - split; constructor.
  - cbn [length seq for_each] in Hrun.
    apply bind_Ok_inv in Hrun as ([fm' fc'] & Hbody & Hrest).
    rewrite filterMetadata_body_at in Hbody.
    apply bind_Ok_inv in Hbody as (density & Hdensity & Hbody).
    unfold list_getitem in Hdensity.
    destruct (parameters c !! 7) as [x|] eqn:Hx; [|discriminate].
    injection Hdensity as ->.
    replace (c :: todo) with ([c] ++ todo) in Hrest by reflexivity.
    rewrite app_assoc in Hrest.
    replace (S (length done)) with (length (done ++ [c])) in Hrest
      by (rewrite length_app, Nat.add_1_r; reflexivity).
    apply IH in Hrest as [Hlen Hkey]. split; constructor; try assumption.
    + apply lookup_lt_Some in Hx. lia.
    + unfold keep, dense. rewrite Hx. intros Hgt. rewrite Hgt in Hbody.
      apply bind_Ok_inv in Hbody as (v & Hv & _). unfold dict_getitem in Hv.
      destruct (clusters !! cluster_id c); [eauto | discriminate].
Qed.

(** What [filterMetadata] returns on well-formed arguments. *)
Lemma filterMetadata_Ok (metadata : list Features) :
  Forall (λ c, 8 ≤ length (parameters c)) metadata →
  Forall (λ c, keep c → is_Some (clusters !! cluster_id c)) metadata →
  ∃ fc,
    filterMetadata metadata clusters thresh = Ok (filter keep metadata, fc) ∧
    (∀ k, fc !! k = if decide (k ∈ cluster_id <$> filter keep metadata)
                    then clusters !! k else None).
Proof.
  intros Hlen Hkey.
  destruct (filterMetadata_loop metadata [] [] ∅ Hlen Hkey) as (fc & Hrun & Hfc).
  exists fc. split; [exact Hrun|].
  intros k. rewrite Hfc. case_decide; [reflexivity | apply lookup_empty].
Qed.

(** [filterMetadata] returns on no other arguments. *)
Lemma filterMetadata_Ok_inv (metadata : list Features)
    (out : list Features * gmap string V) :
  filterMetadata metadata clusters thresh = Ok out →
  Forall (λ c, 8 ≤ length (parameters c)) metadata ∧
  Forall (λ c, keep c → is_Some (clusters !! cluster_id c)) metadata.
Proof. apply (filterMetadata_loop_inv metadata []). Qed.

End FilterMetadata.

(** C3, as stated, fails: a record that passes the density test and whose id
    is not a key of the cluster mapping ends the call in KeyError. *)
Lemma filterMetadata_missing_cluster :
  filterMetadata [Sample.record "a" 25] (∅ : gmap string ndarray)
    filterMetadata_thresh
  = Raise KeyError.
Proof. vm_compute. reflexivity. Qed.

(** C3, amended. When every record has at least 8 parameters and the cluster
    mapping has the id of every record whose feature 7 is greater than
    [thresh], [filterMetadata] returns exactly the records whose feature 7 is
    strictly greater than [thresh], in the input order, with a mapping whose
    keys are the ids of the returned records and whose entries are those of
    the input mapping; every returned record has feature 7 above [thresh]. *)
Theorem filterMetadata_keeps_dense {V} (metadata : list Features)
    (clusters : gmap string V) (thresh : float) :
  Forall (λ c, 8 ≤ length (parameters c)) metadata →
  Forall (λ c, dense thresh c = true → is_Some (clusters !! cluster_id c))
    metadata →
  let filtered_metadata := filter (λ c, dense thresh c = true) metadata in
  ∃ filtered_clusters,
    filterMetadata metadata clusters thresh
    = Ok (filtered_metadata, filtered_clusters) ∧
    dom filtered_clusters = list_to_set (cluster_id <$> filtered_metadata) ∧
    filtered_clusters ⊆ clusters ∧
    Forall (λ c, ∃ density, parameters c !! 7 = Some density ∧
                            float_gt density thresh = true)
      filtered_metadata.
Proof.
  intros Hlen Hkey filtered_metadata.
  destruct (filterMetadata_Ok clusters thresh metadata Hlen Hkey)
    as (fc & Hrun & Hfc).
  exists fc. split; [exact Hrun|]. split; [|split].
  - apply set_eq. intros k.
    rewrite elem_of_dom, elem_of_list_to_set, Hfc.
    fold filtered_metadata. case_decide as Hin; [|split; [intros [? [=]] | done]].
    split; [intros _; exact Hin | intros _].
    apply list_elem_of_fmap in Hin as (c & -> & [Hc Hin]%list_elem_of_filter).
    rewrite Forall_forall in Hkey. apply (Hkey c Hin Hc).
  - apply map_subseteq_spec. intros k v. rewrite Hfc.
    case_decide; [done | discriminate].
  - apply Forall_forall. intros c [Hc _]%list_elem_of_filter.
    unfold dense in Hc. destruct (parameters c !! 7) as [d|]; [eauto | discriminate].
Qed.

Lemma filterMetadata_keeps_dense_witness :
  ∃ filtered_clusters,
    filterMetadata Sample.metadata Sample.clusters filterMetadata_thresh
    = Ok ([Sample.record "a" 25], filtered_clusters) ∧
    dom filtered_clusters = {[ "a" ]}.
Proof.
  destruct (filterMetadata_keeps_dense Sample.metadata Sample.clusters
              filterMetadata_thresh) as (fc & Hrun & Hdom & _).
  - repeat constructor.
  - repeat constructor.
    + intros _. exists Sample.cloud. reflexivity.
    + intros Hb. vm_compute in Hb. discriminate Hb.
  - exists fc. split; [exact Hrun|].
    rewrite Hdom. vm_compute. reflexivity.
Defined.

(** ** Lists of results *)

Lemma mapM_result_ext {A B} (f g : A → result B) (l : list A) :
  (∀ x, x ∈ l → f x = g x) → mapM f l = mapM g l.
Proof.
  induction l as [|x l IH]; intros Hfg; [reflexivity|].
  cbn [mapM]. rewrite (Hfg x), IH; [reflexivity | | apply list_elem_of_here].
  intros y Hy. apply Hfg, list_elem_of_further, Hy.
Qed.

Lemma mapM_result_Ok {A B} (f : A → result B) (l : list A) (k : list B) :
  mapM f l = Ok k → Forall2 (λ x y, f x = Ok y) l k.
Proof.
  revert k. induction l as [|x l IH]; intros k; cbn [mapM].
  - intros [= <-]. constructor.
  - intros (y & Hy & (k' & Hk' & [= <-])%bind_Ok_inv)%bind_Ok_inv.
    constructor; [exact Hy | apply IH, Hk'].
Qed.

Lemma filter_ext_in {A} (P Q : A → Prop) `{!∀ x, Decision (P x)}
    `{!∀ x, Decision (Q x)} (l : list A) :
  (∀ x, x ∈ l → P x ↔ Q x) → filter P l = filter Q l.
Proof.
  induction l as [|x l IH]; intros HPQ; [reflexivity|].
  rewrite !filter_cons, IH
    by (intros y Hy; apply HPQ, list_elem_of_further, Hy).
  apply decide_ext, HPQ, list_elem_of_here.
Qed.

(** ** parseFrame *)

Section ParseFrame.

Variable remove_groundplane : ndarray → ndarray.
Variable get_pts_in_bbox : ndarray → Label.t → ndarray.
Variable extract_cluster_parameters : ndarray → result (list float).

Let extract := computeClusterMetadata extract_cluster_parameters.

(** The argument [clusters[b.id]] of the extraction call. *)
Let argument (clusters : gmap string (option ndarray)) (b : Label.t) : pyobj :=
  entry_obj (default None (clusters !! Label.id b)).

(** The comprehension of lines 217-218 calls the extractor on the boxes
    whose entry is not [None], in order, as long as every box has an entry:
    no KeyError, and [None] is never passed on. *)
Lemma parseFrame_metadata_mapM clusters frame_no bboxes :
  (∀ b, b ∈ bboxes → is_Some (clusters !! Label.id b)) →
  parseFrame_metadata extract_cluster_parameters clusters frame_no bboxes
  = mapM (λ b, extract (argument clusters b) b frame_no)
      (filter (λ b, present clusters b = true) bboxes).
Proof.
  induction bboxes as [|b bboxes IH]; intros Hdom; [reflexivity|].
  destruct (Hdom b (list_elem_of_here _ _)) as [v Hv].
  specialize (IH (λ b' Hb', Hdom b' (list_elem_of_further _ _ _ Hb'))).
  cbn [parseFrame_metadata]. rewrite (dict_getitem_Some _ _ _ Hv).
  cbn [mbind result_bind]. rewrite filter_cons, IH.
  assert (present clusters b = is_not_None (entry_obj v)) as Hp
    by (unfold present; rewrite Hv; destruct v; reflexivity).
  assert (argument clusters b = entry_obj v) as Ha
    by (unfold argument; rewrite Hv; reflexivity).
  destruct v as [a|]; cbn [entry_obj is_not_None] in *.
  - rewrite decide_True by exact Hp. cbn [mapM]. rewrite Ha. reflexivity.
  - rewrite decide_False by congruence. reflexivity.
Qed.

(** With distinct box ids, the first three stages of [parseFrame] compute
    the records of the frame. *)
Lemma parseFrame_metadata_records frame frame_no :
  NoDup (Label.id <$> frame_bboxes frame) →
  parseFrame_metadata extract_cluster_parameters
    (clusterByBBox get_pts_in_bbox
       (filterPcl remove_groundplane (frame_pcl frame))
       (frame_bboxes frame) clusterByBBox_thresh)
    frame_no (frame_bboxes frame)
  = frame_records remove_groundplane get_pts_in_bbox
      extract_cluster_parameters frame frame_no.
Proof.
  intros Hnd. set (pcl := filterPcl remove_groundplane (frame_pcl frame)).
  set (clusters := clusterByBBox _ _ _ _).
  assert (∀ b, b ∈ frame_bboxes frame →
            clusters !! Label.id b
            = Some (cluster_entry get_pts_in_bbox pcl clusterByBBox_thresh b))
    as Hentry by (intros b Hb; apply clusterByBBox_lookup; assumption).
  rewrite parseFrame_metadata_mapM
    by (intros b Hb; rewrite (Hentry b Hb); eauto).
  unfold frame_records. fold pcl.
  rewrite (filter_ext_in (λ b, present clusters b = true)
             (λ b, cluster_entry get_pts_in_bbox pcl clusterByBBox_thresh b
                   ≠ None)).
  - apply mapM_result_ext. intros b [Hb Hin]%list_elem_of_filter.
    unfold argument. rewrite (Hentry b Hin). unfold cluster_entry in *.
    case_bool_decide; [contradiction | reflexivity].
  - intros b Hb. unfold present. rewrite (Hentry b Hb).
    destruct (cluster_entry _ _ _ b); split; (done || discriminate).
Qed.

(** [parseFrame] calls [filterMetadata] with the records alone: Python
    refuses the call before the filter runs. *)
Lemma parseFrame_filter_call frame frame_no :
  parseFrame remove_groundplane get_pts_in_bbox extract_cluster_parameters
    frame frame_no
  = parseFrame_metadata extract_cluster_parameters
      (clusterByBBox get_pts_in_bbox
         (filterPcl remove_groundplane (frame_pcl frame))
         (frame_bboxes frame) clusterByBBox_thresh)
      frame_no (frame_bboxes frame)
    ≫= λ _, Raise TypeError.
Proof. reflexivity. Qed.

End ParseFrame.

(** C1. [DatasetCreator.parseFrame] does not complete on any frame: it runs
    the ground filter, the clustering and the extraction for the boxes whose
    cluster is present, in this order, and then calls [filterMetadata]
    without the cluster mapping, which raises TypeError. When the extraction
    stage returns, TypeError is what the call ends in; nothing is filtered,
    saved or returned. *)
Theorem parseFrame_never_returns
    (remove_groundplane : ndarray → ndarray)
    (get_pts_in_bbox : ndarray → Label.t → ndarray)
    (extract_cluster_parameters : ndarray → result (list float))
    (frame : Frame) (frame_no : Z) :
  let run := parseFrame remove_groundplane get_pts_in_bbox
               extract_cluster_parameters frame frame_no in
  raises run ∧
  (NoDup (Label.id <$> frame_bboxes frame) →
   run = frame_records remove_groundplane get_pts_in_bbox
           extract_cluster_parameters frame frame_no
         ≫= λ _, Raise TypeError).
Proof.
  intros run. unfold run. rewrite parseFrame_filter_call. split.
  - destruct (parseFrame_metadata _ _ _ _) as [metadata|e];
      eexists; reflexivity.
  - intros Hnd. rewrite parseFrame_metadata_records by exact Hnd. reflexivity.
Qed.

(** ** DatasetCreatorVis.parseFrame *)

Section ParseFrameVis.

Variable remove_groundplane : ndarray → ndarray.
Variable get_pts_in_bbox : ndarray → Label.t → ndarray.
Variable extract_cluster_parameters : ndarray → result (list float).
Variable clusters : gmap string (option ndarray).

Let extract := computeClusterMetadata extract_cluster_parameters.
Let valid (b : Label.t) : Prop := present clusters b = true.

(** One turn of the loop of lines 349-352. *)
Lemma valid_body_at (b : Label.t) (v : option ndarray)
    (valid_clusters : gmap string (option ndarray))
    (valid_bboxes : list Label.t) :
  clusters !! Label.id b = Some v →
  valid_body clusters (valid_clusters, valid_bboxes) b
  = Ok (if present clusters b
        then (<[Label.id b := v]> valid_clusters, valid_bboxes ++ [b])
        else (valid_clusters, valid_bboxes)).
Proof.
  intros Hv. unfold valid_body, present.
  rewrite (dict_getitem_Some _ _ _ Hv), Hv. destruct v; reflexivity.
Qed.

(** The loop keeps the boxes with a cluster, in order, and copies their
    entries. *)
Lemma valid_loop (bboxes valid_bboxes : list Label.t)
    (valid_clusters : gmap string (option ndarray)) :
  (∀ b, b ∈ bboxes → is_Some (clusters !! Label.id b)) →
  ∃ vc,
    for_each (valid_body clusters) bboxes (valid_clusters, valid_bboxes)
    = Ok (vc, valid_bboxes ++ filter valid bboxes) ∧
    (∀ k, vc !! k = if decide (k ∈ Label.id <$> filter valid bboxes)
                    then clusters !! k else valid_clusters !! k).
Proof.
  revert valid_bboxes valid_clusters.
  induction bboxes as [|b bboxes IH]; intros vb vc Hdom.
  - exists vc. cbn [for_each]. rewrite filter_nil, app_nil_r.
    split; reflexivity.
  - destruct (Hdom b (list_elem_of_here _ _)) as [v Hv].
    pose proof (λ b' Hb', Hdom b' (list_elem_of_further _ _ _ Hb')) as Hdom'.
    cbn [for_each]. rewrite (valid_body_at b v vc vb Hv), filter_cons.
    cbn [mbind result_bind].
    destruct (decide (valid b)) as [Hb|Hb]; unfold valid in Hb.
    + destruct (IH (vb ++ [b]) (<[Label.id b := v]> vc) Hdom')
        as (vc' & Hrun & Hvc').
      exists vc'. rewrite Hb, Hrun, <- app_assoc.
      split; [reflexivity|]. intros k. rewrite Hvc', fmap_cons.
      destruct (decide (k ∈ Label.id <$> filter valid bboxes)) as [Hin|Hnin].
      * rewrite decide_True; [reflexivity | apply list_elem_of_further, Hin].
      * destruct (decide (k = Label.id b)) as [->|Hne].
        -- rewrite lookup_insert_eq, decide_True;
             [symmetry; exact Hv | apply list_elem_of_here].
        -- rewrite lookup_insert_ne by congruence.
           rewrite decide_False; [reflexivity|].
           intros [Heq|Hin]%elem_of_cons; [congruence | contradiction].
    + destruct (IH vb vc Hdom') as (vc' & Hrun & Hvc').
      exists vc'. apply not_true_is_false in Hb. rewrite Hb, Hrun.
      split; [reflexivity | exact Hvc'].
Qed.

End ParseFrameVis.

(** X7. The sibling [DatasetCreatorVis.parseFrame] passes the cluster
    mapping and goes through: with distinct box ids, records of at least 8
    parameters and, under [visualize == 4], at least one dense record, it
    hands [saveClusterMetadata] the dense records of the frame, in box
    order. *)
Lemma parseFrameVis_saves_dense_records
    (remove_groundplane : ndarray → ndarray)
    (get_pts_in_bbox : ndarray → Label.t → ndarray)
    (extract_cluster_parameters : ndarray → result (list float))
    (visualize : Z) (frame : Frame) (frame_no : Z) (records : list Features) :
  NoDup (Label.id <$> frame_bboxes frame) →
  frame_records remove_groundplane get_pts_in_bbox extract_cluster_parameters
    frame frame_no = Ok records →
  Forall (λ r, 8 ≤ length (parameters r)) records →
  visualize ≠ 4%Z ∨
    Exists (λ r, dense filterMetadata_thresh r = true) records →
  parseFrameVis remove_groundplane get_pts_in_bbox extract_cluster_parameters
    visualize frame frame_no
  = Ok (mkSaved (context_name frame)
          (filter (λ r, dense filterMetadata_thresh r = true) records)).
Proof.
  intros Hnd Hrec Hlen Hvis. unfold parseFrameVis. cbn [unpack_frame].
  set (pcl := filterPcl remove_groundplane (frame_pcl frame)).
  set (clusters := clusterByBBox get_pts_in_bbox pcl (frame_bboxes frame)
                     clusterByBBox_thresh).
  assert (∀ b, b ∈ frame_bboxes frame →
            clusters !! Label.id b
            = Some (cluster_entry get_pts_in_bbox pcl clusterByBBox_thresh b))
    as Hentry by (intros b Hb; apply clusterByBBox_lookup; assumption).
  assert (∀ b, b ∈ frame_bboxes frame → is_Some (clusters !! Label.id b))
    as Hdom by (intros b Hb; rewrite (Hentry b Hb); eauto).
  destruct (valid_loop clusters (frame_bboxes frame) [] ∅ Hdom)
    as (vc & Hrun & Hvc).
  rewrite Hrun. cbn [mbind result_bind app].
  assert (∀ b, b ∈ filter (λ b, present clusters b = true) (frame_bboxes frame) →
            vc !! Label.id b = clusters !! Label.id b) as Hcopy.
  { intros b Hb. rewrite Hvc, decide_True; [reflexivity|].
    apply list_elem_of_fmap_2, Hb. }
  assert (vis_metadata extract_cluster_parameters vc frame_no
            (filter (λ b, present clusters b = true) (frame_bboxes frame))
          = Ok records) as Hmeta.
  { rewrite <- Hrec, <- parseFrame_metadata_records by exact Hnd.
    fold pcl clusters. rewrite parseFrame_metadata_mapM by exact Hdom.
    apply mapM_result_ext. intros b Hb. pose proof (Hcopy b Hb) as Hvcb.
    apply list_elem_of_filter in Hb as [_ Hb].
    destruct (Hdom b Hb) as [v Hv]. rewrite Hv in Hvcb |- *.
    rewrite (dict_getitem_Some _ _ _ Hvcb). reflexivity. }
  rewrite Hmeta. cbn [mbind result_bind call_filterMetadata default].
  assert (Forall (λ r, is_Some (vc !! cluster_id r)) records) as Hkeys.
  { apply Forall_forall. intros r [i Hi]%list_elem_of_lookup.
    apply mapM_result_Ok in Hrec.
    destruct (Forall2_lookup_r _ _ _ _ _ Hrec Hi) as (b & Hb & Hr).
    apply list_elem_of_lookup_2, list_elem_of_filter in Hb as [Hb Hin].
    apply computeClusterMetadata_Ok_inv in Hr as (a & ps & _ & _ & ->).
    cbn [cluster_id]. rewrite Hcopy, (Hentry b Hin).
    - destruct (cluster_entry _ _ _ b); [eauto | contradiction].
    - apply list_elem_of_filter. split; [|exact Hin].
      unfold present. rewrite (Hentry b Hin).
      destruct (cluster_entry _ _ _ b); [reflexivity | contradiction]. }
  destruct (filterMetadata_Ok vc filterMetadata_thresh records Hlen)
    as (fc & Hfilter & Hfc).
  { eapply Forall_impl; [exact Hkeys|]. intros r Hr _. exact Hr. }
  rewrite Hfilter. cbn [mbind result_bind].
  unfold vis_publish_filtered. case_bool_decide as Hfour; [|reflexivity].
  destruct Hvis as [Hvis|Hvis]; [contradiction|].
  rewrite bool_decide_eq_false_2; [reflexivity|]. intros ->.
  apply Exists_exists in Hvis as (r & Hin & Hr).
  specialize (Hfc (cluster_id r)). rewrite lookup_empty, decide_True in Hfc.
  - rewrite Forall_forall in Hkeys. destruct (Hkeys r Hin) as [v Hv]. congruence.
  - apply list_elem_of_fmap_2, list_elem_of_filter. split; assumption.
Qed.

(** ** filterMetadata over the store: what exists before the call stays *)

Section Keeps.

Variable h0 : Store.store.

Lemma keeps_ret {A} (a : A) (Q : A → Prop) : Q a → Store.keeps h0 (mret a) Q.
Proof. intros HQ h Hh. split; [exact Hh|]. intros a' [= <-]. exact HQ. Qed.

Lemma keeps_raise {A} (e : exn) (Q : A → Prop) : Store.keeps h0 (Store.raise e) Q.
Proof. intros h Hh. split; [exact Hh | discriminate]. Qed.

Lemma keeps_bind {A B} (m : Store.M A) (f : A → Store.M B)
    (Q : A → Prop) (R : B → Prop) :
  Store.keeps h0 m Q → (∀ a, Q a → Store.keeps h0 (f a) R) →
  Store.keeps h0 (m ≫= f) R.
Proof.
  intros Hm Hf h Hh. destruct (Hm h Hh) as [Hext HQ].
  unfold mbind, Store.M_bind. destruct (m h) as [[a|e] h']; simpl in *.
  - apply (Hf a (HQ a eq_refl) h' Hext).
  - split; [exact Hext | discriminate].
Qed.

Lemma keeps_weaken {A} (m : Store.M A) (Q R : A → Prop) :
  Store.keeps h0 m Q → (∀ a, Q a → R a) → Store.keeps h0 m R.
Proof.
  intros Hm HQR h Hh. destruct (Hm h Hh) as [Hext HQ].
  split; [exact Hext | intros a Ha; apply HQR, HQ, Ha].
Qed.

Lemma keeps_read (l : Store.loc) : Store.keeps h0 (Store.read l) (λ _, True).
Proof.
  intros h Hh. unfold Store.read. destruct (h !! l); simpl; split; done.
Qed.

(** Writing to an object that [h0] does not have leaves [h0] in place. *)
Lemma keeps_write (l : Store.loc) (o : Store.obj) :
  h0 !! l = None → Store.keeps h0 (Store.write l o) (λ _, True).
Proof.
  intros Hl h Hh. split; [|done]. simpl.
  apply insert_subseteq_r; assumption.
Qed.

(** A new object is not one of [h0]. *)
Lemma keeps_alloc (o : Store.obj) :
  Store.keeps h0 (Store.alloc o) (λ l, h0 !! l = None).
Proof.
  intros h Hh. unfold Store.alloc. simpl.
  assert (h !! fresh (dom h) = None) as Hfresh
    by apply not_elem_of_dom, is_fresh.
  assert (h0 !! fresh (dom h) = None) as Hfresh0.
  { destruct (h0 !! fresh (dom h)) as [o'|] eqn:Ho'; [|reflexivity].
    apply (lookup_weaken _ _ _ _ Ho') in Hh. congruence. }
  split; [apply insert_subseteq_r; assumption|].
  intros l [= <-]. exact Hfresh0.
Qed.

(** A computation that reads the object at [l] and goes on by its kind:
    the kinds that end in an exception are closed, the others are left. *)
Ltac after_read l :=
  apply (keeps_bind _ _ _ _ (keeps_read l));
  intros [?f|?a|?items|?entries] _;
  try apply keeps_raise; try (apply keeps_ret; exact I).

Lemma keeps_len (x : Store.loc) : Store.keeps h0 (Store.len x) (λ _, True).
Proof. unfold Store.len. after_read x. Qed.

Lemma keeps_list_getitem (x : Store.loc) (i : nat) :
  Store.keeps h0 (Store.list_getitem x i) (λ _, True).
Proof.
  unfold Store.list_getitem. after_read x.
  destruct (items !! i); [apply keeps_ret; exact I | apply keeps_raise].
Qed.

Lemma keeps_dict_getitem (d : Store.loc) (k : string) :
  Store.keeps h0 (Store.dict_getitem d k) (λ _, True).
Proof.
  unfold Store.dict_getitem. after_read d.
  destruct (entries !! k); [apply keeps_ret; exact I | apply keeps_raise].
Qed.

Lemma keeps_get_parameters (c : Store.loc) :
  Store.keeps h0 (Store.get_parameters c) (λ _, True).
Proof. unfold Store.get_parameters. after_read c. Qed.

Lemma keeps_get_cluster_id (c : Store.loc) :
  Store.keeps h0 (Store.get_cluster_id c) (λ _, True).
Proof. unfold Store.get_cluster_id. after_read c. Qed.

Lemma keeps_parameter (ps : list float) (i : nat) :
  Store.keeps h0 (Store.parameter ps i) (λ _, True).
Proof.
  unfold Store.parameter.
  destruct (ps !! i); [apply keeps_ret; exact I | apply keeps_raise].
Qed.

Lemma keeps_list_append (x c : Store.loc) :
  h0 !! x = None → Store.keeps h0 (Store.list_append x c) (λ _, True).
Proof.
  intros Hx. unfold Store.list_append. after_read x. apply keeps_write, Hx.
Qed.

Lemma keeps_dict_setitem (d : Store.loc) (k : string) (v : Store.pyval) :
  h0 !! d = None → Store.keeps h0 (Store.dict_setitem d k v) (λ _, True).
Proof.
  intros Hd. unfold Store.dict_setitem. after_read d. apply keeps_write, Hd.
Qed.

Lemma keeps_for_in {A} (items : list A) (body : A → Store.M unit) :
  (∀ i, Store.keeps h0 (body i) (λ _, True)) →
  Store.keeps h0 (Store.for_in items body) (λ _, True).
Proof.
  intros Hbody. induction items as [|i items IH]; cbn [Store.for_in].
  - apply keeps_ret. exact I.
  - apply (keeps_bind _ _ _ _ (Hbody i)). intros _ _. exact IH.
Qed.

(** The loop body writes to the two result objects only. *)
Lemma keeps_filterMetadata_body (metadata clusters : Store.loc)
    (thresh : float) (fm fc : Store.loc) (i : nat) :
  h0 !! fm = None → h0 !! fc = None →
  Store.keeps h0 (Store.filterMetadata_body metadata clusters thresh fm fc i)
    (λ _, True).
Proof.
  intros Hfm Hfc. unfold Store.filterMetadata_body.
  apply (keeps_bind _ _ _ _ (keeps_list_getitem metadata i)). intros c _.
  apply (keeps_bind _ _ _ _ (keeps_get_parameters c)). intros ps _.
  apply (keeps_bind _ _ _ _ (keeps_parameter ps 7)). intros density _.
  destruct (float_gt density thresh); [|apply keeps_ret; exact I].
  apply (keeps_bind _ _ _ _ (keeps_get_cluster_id c)). intros k _.
  apply (keeps_bind _ _ _ _ (keeps_dict_getitem clusters k)). intros v _.
  apply (keeps_bind _ _ _ _ (keeps_dict_setitem fc k v Hfc)). intros _ _.
  apply keeps_list_append, Hfm.
Qed.

Lemma keeps_filterMetadata (metadata clusters : Store.loc) (thresh : float) :
  Store.keeps h0 (Store.filterMetadata metadata clusters thresh)
    (λ '(fm, fc), h0 !! fm = None ∧ h0 !! fc = None).
Proof.
  unfold Store.filterMetadata.
  apply (keeps_bind _ _ _ _ (keeps_alloc _)). intros fm Hfm.
  apply (keeps_bind _ _ _ _ (keeps_alloc _)). intros fc Hfc.
  apply (keeps_bind _ _ _ _ (keeps_len metadata)). intros n _.
  eapply keeps_bind.
  - apply keeps_for_in. intros i. apply keeps_filterMetadata_body; assumption.
  - intros _ _. apply keeps_ret. split; assumption.
Qed.

End Keeps.

(** C9. [filterMetadata] leaves its arguments as they were: every object of
    the store before the call, the record list and the cluster mapping among
    them, as well as the records and arrays they refer to, is the same after
    the call, whether the call returns or raises; what it returns are two
    objects that did not exist before. *)
Theorem filterMetadata_leaves_arguments (h : Store.store)
    (metadata clusters : Store.loc) (thresh : float) :
  let run := Store.filterMetadata metadata clusters thresh h in
  h ⊆ run.2 ∧
  (∀ refs ms, Store.holds_records h metadata refs ms →
              Store.holds_records run.2 metadata refs ms) ∧
  (∀ d, Store.holds_dict h clusters d → Store.holds_dict run.2 clusters d) ∧
  (∀ fm fc, run.1 = Ok (fm, fc) → h !! fm = None ∧ h !! fc = None).
Proof.
  intros run.
  destruct (keeps_filterMetadata h metadata clusters thresh h (reflexivity h))
    as [Hext Hnew].
  fold run in Hext, Hnew. split; [exact Hext|]. split; [|split].
  - intros refs ms [Hlist Hrecs]. split.
    + apply (lookup_weaken _ _ _ _ Hlist Hext).
    + eapply Forall2_impl; [exact Hrecs|]. intros r m Hr.
      apply (lookup_weaken _ _ _ _ Hr Hext).
  - intros d Hd. apply (lookup_weaken _ _ _ _ Hd Hext).
  - intros fm fc Hrun. apply (Hnew (fm, fc) Hrun).
Qed.

(** ** filterMetadata over the store computes the filter *)

Lemma run_bind_Ok {A B} (m : Store.M A) (f : A → Store.M B) h a h' :
  m h = (Ok a, h') → (m ≫= f) h = f a h'.
Proof. intros Hm. unfold mbind, Store.M_bind. rewrite Hm. reflexivity. Qed.

Lemma run_bind_Raise {A B} (m : Store.M A) (f : A → Store.M B) h e h' :
  m h = (Raise e, h') → (m ≫= f) h = (Raise e, h').
Proof. intros Hm. unfold mbind, Store.M_bind. rewrite Hm. reflexivity. Qed.

Lemma run_read (h : Store.store) l o :
  h !! l = Some o → Store.read l h = (Ok o, h).
Proof. intros Hl. unfold Store.read. rewrite Hl. reflexivity. Qed.

Lemma run_len_list (h : Store.store) x items :
  h !! x = Some (Store.OList items) → Store.len x h = (Ok (length items), h).
Proof.
  intros Hx. unfold Store.len. rewrite (run_bind_Ok _ _ _ _ _ (run_read _ _ _ Hx)).
  reflexivity.
Qed.

Lemma run_list_getitem (h : Store.store) x items i :
  h !! x = Some (Store.OList items) →
  Store.list_getitem x i h
  = (match items !! i with Some c => Ok c | None => Raise IndexError end, h).
Proof.
  intros Hx. unfold Store.list_getitem.
  rewrite (run_bind_Ok _ _ _ _ _ (run_read _ _ _ Hx)).
  destruct (items !! i); reflexivity.
Qed.

Lemma run_list_getitem_Some (h : Store.store) x items i c :
  h !! x = Some (Store.OList items) → items !! i = Some c →
  Store.list_getitem x i h = (Ok c, h).
Proof. intros Hx Hi. rewrite (run_list_getitem _ _ _ _ Hx), Hi. reflexivity. Qed.

Lemma run_list_getitem_None (h : Store.store) x items i :
  h !! x = Some (Store.OList items) → items !! i = None →
  Store.list_getitem x i h = (Raise IndexError, h).
Proof. intros Hx Hi. rewrite (run_list_getitem _ _ _ _ Hx), Hi. reflexivity. Qed.

Lemma run_get_parameters (h : Store.store) c f :
  h !! c = Some (Store.OFeatures f) →
  Store.get_parameters c h = (Ok (parameters f), h).
Proof.
  intros Hc. unfold Store.get_parameters.
  rewrite (run_bind_Ok _ _ _ _ _ (run_read _ _ _ Hc)). reflexivity.
Qed.

Lemma run_get_cluster_id (h : Store.store) c f :
  h !! c = Some (Store.OFeatures f) →
  Store.get_cluster_id c h = (Ok (cluster_id f), h).
Proof.
  intros Hc. unfold Store.get_cluster_id.
  rewrite (run_bind_Ok _ _ _ _ _ (run_read _ _ _ Hc)). reflexivity.
Qed.

Lemma run_dict_getitem (h : Store.store) d entries k :
  h !! d = Some (Store.ODict entries) →
  Store.dict_getitem d k h
  = (match entries !! k with Some v => Ok v | None => Raise KeyError end, h).
Proof.
  intros Hd. unfold Store.dict_getitem.
  rewrite (run_bind_Ok _ _ _ _ _ (run_read _ _ _ Hd)).
  destruct (entries !! k); reflexivity.
Qed.

Lemma run_dict_getitem_Some (h : Store.store) d entries k v :
  h !! d = Some (Store.ODict entries) → entries !! k = Some v →
  Store.dict_getitem d k h = (Ok v, h).
Proof. intros Hd Hk. rewrite (run_dict_getitem _ _ _ _ Hd), Hk. reflexivity. Qed.

Lemma run_dict_getitem_None (h : Store.store) d entries k :
  h !! d = Some (Store.ODict entries) → entries !! k = None →
  Store.dict_getitem d k h = (Raise KeyError, h).
Proof. intros Hd Hk. rewrite (run_dict_getitem _ _ _ _ Hd), Hk. reflexivity. Qed.

Lemma run_parameter (h : Store.store) (ps : list float) (i : nat) :
  Store.parameter ps i h
  = (match ps !! i with Some x => Ok x | None => Raise IndexError end, h).
Proof. unfold Store.parameter. destruct (ps !! i); reflexivity. Qed.

Lemma run_dict_setitem (h : Store.store) d entries k v :
  h !! d = Some (Store.ODict entries) →
  Store.dict_setitem d k v h
  = (Ok (), <[d := Store.ODict (<[k := v]> entries)]> h).
Proof.
  intros Hd. unfold Store.dict_setitem.
  rewrite (run_bind_Ok _ _ _ _ _ (run_read _ _ _ Hd)). reflexivity.
Qed.

Lemma run_list_append (h : Store.store) x items c :
  h !! x = Some (Store.OList items) →
  Store.list_append x c h = (Ok (), <[x := Store.OList (items ++ [c])]> h).
Proof.
  intros Hx. unfold Store.list_append.
  rewrite (run_bind_Ok _ _ _ _ _ (run_read _ _ _ Hx)). reflexivity.
Qed.

Section StoreRefines.

Variable h0 : Store.store.
Variables metadata clusters : Store.loc.
Variable refs : list Store.loc.
Variable ms : list Features.
Variable d : gmap string Store.pyval.
Variable thresh : float.

Hypothesis Hmetadata : Store.holds_records h0 metadata refs ms.
Hypothesis Hclusters : Store.holds_dict h0 clusters d.

(** One turn of the loop over the store follows one turn of the loop over
    the values. *)
Lemma store_body_refines (i : nat) (h : Store.store) (fm fc : Store.loc)
    (frefs : list Store.loc) (fms : list Features)
    (fd : gmap string Store.pyval) :
  Store.building h0 h fm fc frefs fms fd →
  match filterMetadata_body ms d thresh (fms, fd) i with
  | Ok (fms', fd') =>
      ∃ h' frefs',
        Store.filterMetadata_body metadata clusters thresh fm fc i h
        = (Ok (), h') ∧
        Store.building h0 h' fm fc frefs' fms' fd'
  | Raise e =>
      ∃ h', Store.filterMetadata_body metadata clusters thresh fm fc i h
            = (Raise e, h')
  end.
Proof.
  intros [Hext Hlist Hrecs Hdict Hnfm Hnfc Hne].
  destruct Hmetadata as [Hmeta Hall]. unfold Store.holds_dict in Hclusters.
  pose proof (lookup_weaken _ _ _ _ Hmeta Hext) as Hmeta'.
  pose proof (lookup_weaken _ _ _ _ Hclusters Hext) as Hclusters'.
  unfold filterMetadata_body, Store.filterMetadata_body, list_getitem.
  destruct (ms !! i) as [m|] eqn:Hm; cbn [mbind result_bind].
  - destruct (Forall2_lookup_r _ _ _ _ _ Hall Hm) as (r & Hr & Hrm).
    pose proof (lookup_weaken _ _ _ _ Hrm Hext) as Hrm'.
    rewrite (run_bind_Ok _ _ _ _ _ (run_list_getitem_Some _ _ _ _ _ Hmeta' Hr)).
    rewrite (run_bind_Ok _ _ _ _ _ (run_get_parameters _ _ _ Hrm')).
    destruct (parameters m !! 7) as [density|] eqn:Hdensity;
      cbn [mbind result_bind].
    2: { eexists. apply run_bind_Raise. rewrite run_parameter, Hdensity.
         reflexivity. }
    rewrite (run_bind_Ok _ _ h density h)
      by (rewrite run_parameter, Hdensity; reflexivity).
    destruct (float_gt density thresh).
    + rewrite (run_bind_Ok _ _ _ _ _ (run_get_cluster_id _ _ _ Hrm')).
      unfold dict_getitem.
      destruct (d !! cluster_id m) as [v|] eqn:Hv; cbn [mbind result_bind].
      * rewrite (run_bind_Ok _ _ _ _ _
                   (run_dict_getitem_Some _ _ _ _ _ Hclusters' Hv)).
        rewrite (run_bind_Ok _ _ _ _ _ (run_dict_setitem _ _ _ _ v Hdict)).
        rewrite (run_list_append _ _ frefs)
          by (rewrite lookup_insert_ne by congruence; exact Hlist).
        eexists _, (frefs ++ [r]). split; [reflexivity|]. constructor.
        -- apply insert_subseteq_r; [exact Hnfm|].
           apply insert_subseteq_r; assumption.
        -- apply lookup_insert_eq.
        -- apply Forall2_app; [exact Hrecs | repeat constructor; exact Hrm].
        -- rewrite lookup_insert_ne by congruence. apply lookup_insert_eq.
        -- exact Hnfm.
        -- exact Hnfc.
        -- exact Hne.
      * eexists. apply run_bind_Raise.
        apply (run_dict_getitem_None _ _ _ _ Hclusters' Hv).
    + exists h, frefs. split; [reflexivity|]. constructor; assumption.
  - eexists. apply run_bind_Raise.
    apply (run_list_getitem_None _ _ _ _ Hmeta').
    apply lookup_ge_None. apply lookup_ge_None in Hm.
    rewrite (Forall2_length _ _ _ Hall). exact Hm.
Qed.

(** The loop over the store follows the loop over the values. *)
Lemma store_loop_refines (idxs : list nat) (h : Store.store)
    (fm fc : Store.loc) (frefs : list Store.loc) (fms : list Features)
    (fd : gmap string Store.pyval) :
  Store.building h0 h fm fc frefs fms fd →
  match for_each (filterMetadata_body ms d thresh) idxs (fms, fd) with
  | Ok (fms', fd') =>
      ∃ h' frefs',
        Store.for_in idxs
          (Store.filterMetadata_body metadata clusters thresh fm fc) h
        = (Ok (), h') ∧
        Store.building h0 h' fm fc frefs' fms' fd'
  | Raise e =>
      ∃ h', Store.for_in idxs
              (Store.filterMetadata_body metadata clusters thresh fm fc) h
            = (Raise e, h')
  end.
Proof.
  revert h frefs fms fd.
  induction idxs as [|i idxs IH]; intros h frefs fms fd Hb;
    cbn [for_each Store.for_in].
  - exists h, frefs. split; [reflexivity | exact Hb].
  - pose proof (store_body_refines i h fm fc frefs fms fd Hb) as Hstep.
    destruct (filterMetadata_body ms d thresh (fms, fd) i) as [[fms1 fd1]|e];
      cbn [mbind result_bind].
    + destruct Hstep as (h1 & frefs1 & Hrun & Hb1).
      rewrite (run_bind_Ok _ _ _ _ _ Hrun). apply (IH _ _ _ _ Hb1).
    + destruct Hstep as (h1 & Hrun). exists h1. apply run_bind_Raise, Hrun.
Qed.

(** [Store.filterMetadata], run on a store that holds the records [ms] and
    the mapping [d], raises what [filterMetadata ms d] raises, and returns
    two new objects that hold what [filterMetadata ms d] returns: a list of
    references to records of the input, and a dict. *)
Lemma filterMetadata_store_refines :
  match filterMetadata ms d thresh with
  | Ok (fms, fd) =>
      ∃ fm fc frefs h',
        Store.filterMetadata metadata clusters thresh h0 = (Ok (fm, fc), h') ∧
        Store.building h0 h' fm fc frefs fms fd
  | Raise e =>
      ∃ h', Store.filterMetadata metadata clusters thresh h0 = (Raise e, h')
  end.
Proof.
  unfold filterMetadata, Store.filterMetadata.
  set (fm := fresh (dom h0)). set (h1 := <[fm := Store.OList []]> h0).
  set (fc := fresh (dom h1)). set (h2 := <[fc := Store.ODict ∅]> h1).
  assert (h0 !! fm = None) as Hfm by apply not_elem_of_dom, is_fresh.
  assert (h1 !! fc = None) as Hfc1 by apply not_elem_of_dom, is_fresh.
  assert (fm ≠ fc) as Hne.
  { intros Heq. rewrite <- Heq in Hfc1. unfold h1 in Hfc1.
    rewrite lookup_insert_eq in Hfc1. discriminate Hfc1. }
  assert (h0 !! fc = None) as Hfc.
  { unfold h1 in Hfc1. rewrite lookup_insert_ne in Hfc1 by exact Hne.
    exact Hfc1. }
  assert (Store.building h0 h2 fm fc [] [] ∅) as Hb.
  { constructor; try assumption.
    - apply insert_subseteq_r; [exact Hfc|].
      apply insert_subseteq_r; [exact Hfm | reflexivity].
    - unfold h2, h1. rewrite lookup_insert_ne by congruence.
      apply lookup_insert_eq.
    - constructor.
    - apply lookup_insert_eq. }
  rewrite (run_bind_Ok _ _ h0 fm h1) by reflexivity.
  rewrite (run_bind_Ok _ _ h1 fc h2) by reflexivity.
  destruct Hmetadata as [Hmeta Hall].
  rewrite (run_bind_Ok _ _ h2 (length refs) h2)
    by (apply run_len_list,
          (lookup_weaken _ _ _ _ Hmeta (Store.building_extends _ _ _ _ _ _ _ Hb))).
  rewrite (Forall2_length _ _ _ Hall).
  pose proof (store_loop_refines (seq 0 (length ms)) h2 fm fc [] [] ∅ Hb)
    as Hloop.
  destruct (for_each (filterMetadata_body ms d thresh) (seq 0 (length ms))
              ([], ∅)) as [[fms fd]|e].
  - destruct Hloop as (h' & frefs & Hrun & Hb').
    exists fm, fc, frefs, h'. rewrite (run_bind_Ok _ _ _ _ _ Hrun).
    split; [reflexivity | exact Hb'].
  - destruct Hloop as (h' & Hrun). exists h'. apply run_bind_Raise, Hrun.
Qed.

End StoreRefines.

(** ** The pipeline on a sample frame *)

(** Box "a" holds six points above the ground, box "b" none; the stand-in
    extractor reports six points over a volume of 1/8. *)
Example parseFrame_sample :
  parseFrame Sample.ground Sample.pts_in (Sample.params 0.125) Sample.frame 3
  = Raise TypeError.
Proof. vm_compute. reflexivity. Qed.

Example parseFrameVis_sample :
  parseFrameVis Sample.ground Sample.pts_in (Sample.params 0.125) 0
    Sample.frame 3
  = Ok (mkSaved "seg-0"
          [mkFeatures "a" 3 1 6 [0; 0; 0; 0; 0; 0; 0; 48]%float]).
Proof. vm_compute. reflexivity. Qed.

(** With [visualize == 4] and no dense record there is nothing to
    concatenate for display. *)
Example parseFrameVis_sample_nothing_dense :
  parseFrameVis Sample.ground Sample.pts_in (Sample.params 8) 4
    Sample.frame 3
  = Raise ValueError.
Proof. vm_compute. reflexivity. Qed.

(** The extractor on a box of volume zero: the record of any other box. *)
Example computeClusterMetadata_sample_flat_box :
  computeClusterMetadata (Sample.params 1) (PyArray Sample.cloud)
    Sample.flat_box 3
  = Ok (mkFeatures "a" 3 1 7 [0; 0; 0; 0; 0; 0; 0; 7]%float).
Proof. vm_compute. reflexivity. Qed.

(** The filter over the sample store: two new objects, the old ones as
    they were, the kept record shared with the input list. *)
Example filterMetadata_store_sample :
  let run := Store.filterMetadata 3 5 filterMetadata_thresh Sample.store in
  run.1 = Ok (6%positive, 7%positive) ∧
  run.2 !! 6%positive = Some (Store.OList [1%positive]) ∧
  run.2 !! 7%positive
  = Some (Store.ODict {[ "a" := Store.PRef 4%positive ]}) ∧
  run.2 !! 3%positive = Sample.store !! 3%positive ∧
  run.2 !! 5%positive = Sample.store !! 5%positive.
Proof. vm_compute. repeat split; reflexivity. Qed.

(** * Further properties of the code *)

(** ** clusterByBBox: repeated ids, thresholds, logged counts *)

Lemma clusterByBBox_size
    (get_pts_in_bbox : ndarray → Label.t → ndarray) (pcl : ndarray)
    (thresh : Z) (bboxes : list Label.t) :
  size (clusterByBBox get_pts_in_bbox pcl bboxes thresh) ≤ length bboxes.
Proof.
  induction bboxes as [|label bboxes IH] using rev_ind; [reflexivity|].
  rewrite clusterByBBox_snoc, length_app, map_size_insert. simpl.
  destruct (_ !! _); unfold id; lia.
Qed.

(** X1. When several boxes carry the same id, [clusterByBBox] keeps one
    entry for the id, that of the last such box: the outcome of an earlier
    box with that id is overwritten, its cluster included. The key set is the
    set of ids, so there are at most as many entries as boxes. *)
Theorem clusterByBBox_last_box_wins
    (get_pts_in_bbox : ndarray → Label.t → ndarray) (pcl : ndarray)
    (thresh : Z) (before after : list Label.t) (label : Label.t) :
  Label.id label ∉ Label.id <$> after →
  let obj_pcls :=
    clusterByBBox get_pts_in_bbox pcl (before ++ label :: after) thresh in
  obj_pcls !! Label.id label
  = Some (cluster_entry get_pts_in_bbox pcl thresh label) ∧
  dom obj_pcls = list_to_set (Label.id <$> before ++ label :: after) ∧
  size obj_pcls ≤ length (before ++ label :: after).
Proof.
  intros Hlast obj_pcls. split; [|split].
  - apply clusterByBBox_lookup_last, Hlast.
  - apply clusterByBBox_dom.
  - apply clusterByBBox_size.
Qed.

Lemma clusterByBBox_last_box_wins_witness :
  let obj_pcls :=
    clusterByBBox Sample.pts_of_type Sample.cloud
      [Sample.unit_box; Sample.shadow_box] clusterByBBox_thresh in
  length (Sample.pts_of_type Sample.cloud Sample.unit_box) = 6 ∧
  obj_pcls !! "a" = Some None.
Proof.
  split; [reflexivity|].
  apply (clusterByBBox_last_box_wins Sample.pts_of_type Sample.cloud
           clusterByBBox_thresh [Sample.unit_box] [] Sample.shadow_box).
  apply not_elem_of_nil.
Defined.

(** X2. Raising the threshold only turns clusters into [None]: a cluster
    that [clusterByBBox] keeps under a threshold is kept, the same, under
    every lower one, and under a threshold of zero or less no entry is
    [None] (an empty cluster is then stored as such). *)
Theorem clusterByBBox_threshold_monotone
    (get_pts_in_bbox : ndarray → Label.t → ndarray) (pcl : ndarray)
    (bboxes : list Label.t) (low high : Z) :
  (low ≤ high)%Z →
  (∀ k a, clusterByBBox get_pts_in_bbox pcl bboxes high !! k = Some (Some a) →
          clusterByBBox get_pts_in_bbox pcl bboxes low !! k = Some (Some a)) ∧
  ((low ≤ 0)%Z →
   ∀ k, clusterByBBox get_pts_in_bbox pcl bboxes low !! k ≠ Some None).
Proof.
  intros Hle. split.
  - induction bboxes as [|label bboxes IH] using rev_ind; intros k a.
    + unfold clusterByBBox. simpl. rewrite lookup_empty. discriminate.
    + rewrite !clusterByBBox_snoc.
      destruct (decide (k = Label.id label)) as [->|Hne].
      * rewrite !lookup_insert_eq. unfold cluster_entry.
        repeat case_bool_decide; (done || lia).
      * rewrite !lookup_insert_ne by congruence. apply IH.
  - intros Hlow.
    induction bboxes as [|label bboxes IH] using rev_ind; intros k.
    + unfold clusterByBBox. simpl. rewrite lookup_empty. discriminate.
    + rewrite clusterByBBox_snoc.
      destruct (decide (k = Label.id label)) as [->|Hne].
      * rewrite lookup_insert_eq. unfold cluster_entry.
        case_bool_decide; [lia | discriminate].
      * rewrite lookup_insert_ne by congruence. apply IH.
Qed.

Lemma clusterByBBox_threshold_monotone_witness :
  clusterByBBox Sample.pts_in Sample.cloud [Sample.unit_box; Sample.other_box]
    2 !! "a"
  = Some (Some (Sample.pts_in Sample.cloud Sample.unit_box)) ∧
  clusterByBBox Sample.pts_in Sample.cloud [Sample.unit_box; Sample.other_box]
    0 !! "b"
  ≠ Some None.
Proof.
  split.
  - apply (clusterByBBox_threshold_monotone Sample.pts_in Sample.cloud
             [Sample.unit_box; Sample.other_box] 2 5); [lia|].
    vm_compute. reflexivity.
  - apply (clusterByBBox_threshold_monotone Sample.pts_in Sample.cloud
             [Sample.unit_box; Sample.other_box] 0 5); lia.
Defined.

Lemma clusterByBBox_final_count_size
    (obj_pcls : gmap string (option ndarray)) :
  clusterByBBox_final_count obj_pcls = size obj_pcls.
Proof.
  unfold clusterByBBox_final_count.
  rewrite <- length_map_to_list, <- (length_fmap fst (map_to_list obj_pcls)).
  f_equal. induction ((map_to_list obj_pcls).*1) as [|k ks IH]; [reflexivity|].
  rewrite filter_cons_True by reflexivity. f_equal. exact IH.
Qed.

(** X3. The "bbox final count" that [clusterByBBox] logs counts the keys of
    the mapping, not the clusters that passed the threshold: it is the number
    of distinct box ids whatever the threshold, hence the initial count when
    the ids are distinct, and never less than the number of clusters kept. *)
Theorem clusterByBBox_final_count_counts_keys
    (get_pts_in_bbox : ndarray → Label.t → ndarray) (pcl : ndarray)
    (bboxes : list Label.t) (thresh : Z) :
  let obj_pcls := clusterByBBox get_pts_in_bbox pcl bboxes thresh in
  clusterByBBox_final_count obj_pcls
  = size (list_to_set (Label.id <$> bboxes) : gset string) ∧
  clusters_kept obj_pcls ≤ clusterByBBox_final_count obj_pcls ∧
  (NoDup (Label.id <$> bboxes) →
   clusterByBBox_final_count obj_pcls = clusterByBBox_initial_count bboxes).
Proof.
  intros obj_pcls. rewrite clusterByBBox_final_count_size.
  assert (size obj_pcls = size (list_to_set (Label.id <$> bboxes) : gset string))
    as Hsize by (rewrite <- size_dom; unfold obj_pcls;
                 rewrite clusterByBBox_dom; reflexivity).
  split; [exact Hsize|]. split.
  - apply map_subseteq_size, map_filter_subseteq.
  - intros Hnd. rewrite Hsize, size_list_to_set by exact Hnd.
    apply length_fmap.
Qed.

(** On the sample frame the final count is 2 and one cluster is kept. *)
Example clusterByBBox_final_count_sample :
  let obj_pcls :=
    clusterByBBox Sample.pts_in Sample.cloud
      [Sample.unit_box; Sample.other_box] clusterByBBox_thresh in
  clusterByBBox_final_count obj_pcls = 2 ∧ clusters_kept obj_pcls = 1.
Proof. vm_compute. split; reflexivity. Qed.

(** ** filterMetadata: when it returns, and what a second pass does *)

Lemma for_each_raises_only {A S} (P : exn → Prop) (body : S → A → result S)
    (items : list A) (s : S) (e : exn) :
  (∀ s x e, body s x = Raise e → P e) →
  for_each body items s = Raise e → P e.
Proof.
  intros Hbody. revert s. induction items as [|x items IH]; intros s;
    cbn [for_each]; [discriminate|].
  destruct (body s x) as [s'|e'] eqn:Hx; cbn [mbind result_bind].
  - apply IH.
  - intros [= <-]. apply (Hbody _ _ _ Hx).
Qed.

Lemma filterMetadata_body_raises {V} (metadata : list Features)
    (clusters : gmap string V) (thresh : float)
    (acc : list Features * gmap string V) (i : nat) (e : exn) :
  filterMetadata_body metadata clusters thresh acc i = Raise e →
  e = IndexError ∨ e = KeyError.
Proof.
  destruct acc as [fm fc]. unfold filterMetadata_body, list_getitem, dict_getitem.
  destruct (metadata !! i) as [c|]; cbn [mbind result_bind];
    [|intros [= <-]; left; reflexivity].
  destruct (parameters c !! 7) as [d|]; cbn [mbind result_bind];
    [|intros [= <-]; left; reflexivity].
  destruct (float_gt d thresh); [|discriminate].
  destruct (clusters !! cluster_id c); cbn [mbind result_bind];
    [discriminate | intros [= <-]; right; reflexivity].
Qed.

(** X4. [filterMetadata] returns exactly when every record has at least 8
    parameters and the mapping has the id of every record whose parameter 7
    is above the threshold; otherwise it raises IndexError or KeyError, and
    nothing else. *)
Theorem filterMetadata_returns_iff {V} (metadata : list Features)
    (clusters : gmap string V) (thresh : float) :
  (returns (filterMetadata metadata clusters thresh) ↔
   Forall (λ c, 8 ≤ length (parameters c)) metadata ∧
   Forall (λ c, dense thresh c = true → is_Some (clusters !! cluster_id c))
     metadata) ∧
  (∀ e, filterMetadata metadata clusters thresh = Raise e →
        e = IndexError ∨ e = KeyError).
Proof.
  split; [split|].
  - intros [out Hout]. apply (filterMetadata_Ok_inv _ _ _ _ Hout).
  - intros [Hlen Hkey].
    destruct (filterMetadata_Ok clusters thresh metadata Hlen Hkey)
      as (fc & Hrun & _).
    eexists. exact Hrun.
  - intros e.
    apply (for_each_raises_only (λ e, e = IndexError ∨ e = KeyError)).
    intros acc i e'. apply filterMetadata_body_raises.
Qed.

(** X5. Filtering is idempotent: what [filterMetadata] returns, records and
    mapping, passes through [filterMetadata] under the same threshold
    unchanged. *)
Theorem filterMetadata_idempotent {V} (metadata : list Features)
    (clusters : gmap string V) (thresh : float)
    (filtered_metadata : list Features) (filtered_clusters : gmap string V) :
  filterMetadata metadata clusters thresh
  = Ok (filtered_metadata, filtered_clusters) →
  filterMetadata filtered_metadata filtered_clusters thresh
  = Ok (filtered_metadata, filtered_clusters).
Proof.
  intros Hrun.
  destruct (filterMetadata_Ok_inv _ _ _ _ Hrun) as [Hlen Hkey].
  destruct (filterMetadata_Ok clusters thresh metadata Hlen Hkey)
    as (fc & Hrun' & Hfc).
  rewrite Hrun in Hrun'. injection Hrun' as -> ->.
  set (keep := λ c, dense thresh c = true) in *.
  destruct (filterMetadata_Ok fc thresh (filter keep metadata))
    as (fc' & Hagain & Hfc').
  - apply Forall_forall. intros c [_ Hc]%list_elem_of_filter.
    rewrite Forall_forall in Hlen. apply Hlen, Hc.
  - apply Forall_forall. intros c Hin _. rewrite Hfc, decide_True
      by apply list_elem_of_fmap_2, Hin.
    apply list_elem_of_filter in Hin as [Hc Hin].
    rewrite Forall_forall in Hkey. apply (Hkey c Hin Hc).
  - rewrite Hagain. fold keep.
    rewrite (list_filter_filter_l keep keep) in * by done.
    f_equal. f_equal. apply map_eq. intros k. rewrite Hfc'.
    case_decide as Hk; [reflexivity|]. rewrite Hfc, decide_False; done.
Qed.

Lemma filterMetadata_idempotent_witness :
  filterMetadata [Sample.record "a" 25] Sample.clusters filterMetadata_thresh
  = Ok ([Sample.record "a" 25], Sample.clusters).
Proof.
  apply (filterMetadata_idempotent Sample.metadata Sample.clusters).
  vm_compute. reflexivity.
Defined.

(** ** DatasetCreatorVis.parseFrame: what it saves and when it raises *)

Lemma filter_none {A} (P : A → Prop) `{!∀ x, Decision (P x)} (l : list A) :
  Forall (λ x, ¬ P x) l → filter P l = [].
Proof.
  induction 1 as [|x l Hx _ IH]; [reflexivity|].
  rewrite filter_cons_False by exact Hx. exact IH.
Qed.

Lemma mapM_result_returns {A B} (f : A → result B) (l : list A) :
  (∀ x, x ∈ l → returns (f x)) → returns (mapM f l).
Proof.
  induction l as [|x l IH]; intros Hf; [eexists; reflexivity|].
  destruct (Hf x (list_elem_of_here _ _)) as [y Hy].
  destruct IH as [k Hk];
    [intros z Hz; apply Hf, list_elem_of_further, Hz|].
  exists (y :: k). cbn [mapM]. rewrite Hy, Hk. reflexivity.
Qed.

Section ParseFrameVisStages.

Variable remove_groundplane : ndarray → ndarray.
Variable get_pts_in_bbox : ndarray → Label.t → ndarray.
Variable extract_cluster_parameters : ndarray → result (list float).
Variable visualize : Z.
Variable frame : Frame.
Variable frame_no : Z.

Let pcl := filterPcl remove_groundplane (frame_pcl frame).
Let clusters :=
  clusterByBBox get_pts_in_bbox pcl (frame_bboxes frame) clusterByBBox_thresh.
Let valid := filter (λ b, present clusters b = true) (frame_bboxes frame).

Lemma frame_clusters_dom (b : Label.t) :
  b ∈ frame_bboxes frame → is_Some (clusters !! Label.id b).
Proof.
  intros Hb. apply elem_of_dom. unfold clusters.
  rewrite clusterByBBox_dom, elem_of_list_to_set.
  apply list_elem_of_fmap_2, Hb.
Qed.

(** The stages of [DatasetCreatorVis.parseFrame], whatever the ids: the
    extraction over the boxes with a cluster, the filter against the mapping
    of those clusters, the display of the survivors, the save. *)
Lemma parseFrameVis_stages :
  ∃ valid_clusters : gmap string (option ndarray),
    (∀ b, b ∈ valid → valid_clusters !! Label.id b = clusters !! Label.id b) ∧
    parseFrameVis remove_groundplane get_pts_in_bbox
      extract_cluster_parameters visualize frame frame_no
    = metadata ← parseFrame_metadata extract_cluster_parameters clusters
                   frame_no (frame_bboxes frame);
      '(sub_metadata, sub_clusters) ←
        filterMetadata metadata valid_clusters filterMetadata_thresh;
      _ ← vis_publish_filtered visualize sub_clusters;
      Ok (mkSaved (context_name frame) sub_metadata).
Proof.
  destruct (valid_loop clusters (frame_bboxes frame) [] ∅ frame_clusters_dom)
    as (vc & Hrun & Hvc).
  assert (∀ b, b ∈ valid → vc !! Label.id b = clusters !! Label.id b) as Hcopy.
  { intros b Hb. rewrite Hvc, decide_True; [reflexivity|].
    apply list_elem_of_fmap_2, Hb. }
  exists vc. split; [exact Hcopy|].
  unfold parseFrameVis. cbn [unpack_frame]. fold pcl clusters.
  rewrite Hrun. cbn [mbind result_bind app].
  rewrite parseFrame_metadata_mapM by exact frame_clusters_dom.
  fold valid. unfold vis_metadata, call_filterMetadata. cbn [default].
  rewrite (mapM_result_ext
             (λ bbox, arg ← dict_getitem vc (Label.id bbox);
                      computeClusterMetadata extract_cluster_parameters
                        (entry_obj arg) bbox frame_no)
             (λ b, computeClusterMetadata extract_cluster_parameters
                     (entry_obj (default None (clusters !! Label.id b)))
                     b frame_no)); [reflexivity|].
  intros b Hb. pose proof (Hcopy b Hb) as Hvcb.
  apply list_elem_of_filter in Hb as [_ Hb].
  destruct (frame_clusters_dom b Hb) as [v Hv]. rewrite Hv in Hvcb |- *.
  rewrite (dict_getitem_Some _ _ _ Hvcb). reflexivity.
Qed.

(** A box counted as valid has an array for a cluster. *)
Lemma valid_argument (b : Label.t) :
  b ∈ valid →
  ∃ a, clusters !! Label.id b = Some (Some a) ∧
       entry_obj (default None (clusters !! Label.id b)) = PyArray a.
Proof.
  intros [Hb _]%list_elem_of_filter. unfold present in Hb.
  destruct (clusters !! Label.id b) as [[a|]|]; try discriminate.
  exists a. split; reflexivity.
Qed.

(** The records the extraction returns carry the ids of valid boxes. *)
Lemma valid_records_keys (records : list Features)
    (valid_clusters : gmap string (option ndarray)) :
  (∀ b, b ∈ valid → valid_clusters !! Label.id b = clusters !! Label.id b) →
  parseFrame_metadata extract_cluster_parameters clusters frame_no
    (frame_bboxes frame) = Ok records →
  Forall (λ r, is_Some (valid_clusters !! cluster_id r)) records.
Proof.
  intros Hcopy Hrec.
  rewrite parseFrame_metadata_mapM in Hrec by exact frame_clusters_dom.
  fold valid in Hrec. apply mapM_result_Ok in Hrec.
  apply Forall_forall. intros r [i Hi]%list_elem_of_lookup.
  destruct (Forall2_lookup_r _ _ _ _ _ Hrec Hi) as (b & Hb & Hr).
  apply list_elem_of_lookup_2 in Hb.
  apply computeClusterMetadata_Ok_inv in Hr as (a & ps & _ & _ & ->).
  cbn [cluster_id]. rewrite (Hcopy b Hb).
  destruct (valid_argument b Hb) as (a' & -> & _). eauto.
Qed.

End ParseFrameVisStages.

Lemma parseFrameVis_saves_dense_records_witness :
  parseFrameVis Sample.ground Sample.pts_in (Sample.params 0.125) 0
    Sample.frame 3
  = Ok (mkSaved "seg-0"
          [mkFeatures "a" 3 1 6 [0; 0; 0; 0; 0; 0; 0; 48]%float]).
Proof.
  apply (parseFrameVis_saves_dense_records Sample.ground Sample.pts_in
           (Sample.params 0.125) 0 Sample.frame 3
           [mkFeatures "a" 3 1 6 [0; 0; 0; 0; 0; 0; 0; 48]%float]).
  - apply (bool_decide_unpack _). vm_compute. exact I.
  - vm_compute. reflexivity.
  - repeat constructor.
  - left. discriminate.
Defined.

(** X8. [DatasetCreatorVis.parseFrame] has no failure of its own when
    nothing is displayed: if [extract_cluster_parameters] returns at least 8
    parameters on every array and [visualize] is not 4, the call goes through
    on every frame, repeated box ids included, and saves under the frame's
    name records that all pass the density test. No [None] reaches the
    extractor and no key is missed. *)
Theorem parseFrameVis_returns_when_extraction_does
    (remove_groundplane : ndarray → ndarray)
    (get_pts_in_bbox : ndarray → Label.t → ndarray)
    (extract_cluster_parameters : ndarray → result (list float))
    (visualize : Z) (frame : Frame) (frame_no : Z) :
  (∀ a, ∃ ps, extract_cluster_parameters a = Ok ps ∧ 8 ≤ length ps) →
  visualize ≠ 4%Z →
  ∃ sub_metadata,
    parseFrameVis remove_groundplane get_pts_in_bbox
      extract_cluster_parameters visualize frame frame_no
    = Ok (mkSaved (context_name frame) sub_metadata) ∧
    Forall (λ r, dense filterMetadata_thresh r = true) sub_metadata.
Proof.
  intros Htotal Hvis.
  destruct (parseFrameVis_stages remove_groundplane get_pts_in_bbox
              extract_cluster_parameters visualize frame frame_no)
    as (vc & Hcopy & ->).
  set (clusters := clusterByBBox _ _ _ _) in *.
  destruct (parseFrame_metadata extract_cluster_parameters clusters frame_no
              (frame_bboxes frame)) as [records|e] eqn:Hrec.
  - pose proof (valid_records_keys _ _ _ _ _ _ _ Hcopy Hrec) as Hkeys.
    assert (Forall (λ r, 8 ≤ length (parameters r)) records) as Hlen.
    { rewrite parseFrame_metadata_mapM in Hrec
        by apply frame_clusters_dom.
      apply mapM_result_Ok in Hrec.
      apply Forall_forall. intros r [i Hi]%list_elem_of_lookup.
      destruct (Forall2_lookup_r _ _ _ _ _ Hrec Hi) as (b & _ & Hr).
      apply computeClusterMetadata_Ok_inv in Hr as (a & ps & _ & Hps & ->).
      destruct (Htotal a) as (ps' & Hps' & Hlen'). cbn [parameters].
      congruence. }
    destruct (filterMetadata_Ok vc filterMetadata_thresh records Hlen)
      as (fc & Hfilter & _).
    { eapply Forall_impl; [exact Hkeys|]. intros r Hr _. exact Hr. }
    cbn [mbind result_bind]. rewrite Hfilter. cbn [mbind result_bind].
    unfold vis_publish_filtered.
    rewrite bool_decide_eq_false_2 by exact Hvis. cbn [mbind result_bind].
    eexists. split; [reflexivity|].
    apply Forall_forall. intros r [Hr _]%list_elem_of_filter. exact Hr.
  - exfalso. subst clusters.
    rewrite parseFrame_metadata_mapM in Hrec by apply frame_clusters_dom.
    apply (raises_not_returns _ (ex_intro _ e Hrec)).
    apply mapM_result_returns. intros b Hb.
    destruct (valid_argument remove_groundplane get_pts_in_bbox frame b Hb)
      as (a & _ & ->).
    rewrite computeClusterMetadata_array.
    destruct (Htotal a) as (ps & -> & _). eexists. reflexivity.
Qed.

Lemma parseFrameVis_returns_when_extraction_does_witness :
  ∃ sub_metadata,
    parseFrameVis Sample.ground Sample.pts_of_type (Sample.params 0.125) 3
      (mkFrame Sample.cloud [Sample.unit_box; Sample.shadow_box] "seg-1") 0
    = Ok (mkSaved "seg-1" sub_metadata) ∧
    Forall (λ r, dense filterMetadata_thresh r = true) sub_metadata.
Proof.
  apply (parseFrameVis_returns_when_extraction_does Sample.ground
           Sample.pts_of_type (Sample.params 0.125) 3
           (mkFrame Sample.cloud [Sample.unit_box; Sample.shadow_box] "seg-1")
           0).
  - intros a. eexists. split; [reflexivity|]. simpl. lia.
  - discriminate.
Defined.

(** X9. With [visualize == 4], [DatasetCreatorVis.parseFrame] concatenates
    the surviving clusters for display before it saves: on a frame whose
    records all fail the density test there is nothing to concatenate, and
    the call raises ValueError without saving. *)
Theorem parseFrameVis_nothing_to_display
    (remove_groundplane : ndarray → ndarray)
    (get_pts_in_bbox : ndarray → Label.t → ndarray)
    (extract_cluster_parameters : ndarray → result (list float))
    (frame : Frame) (frame_no : Z) (records : list Features) :
  NoDup (Label.id <$> frame_bboxes frame) →
  frame_records remove_groundplane get_pts_in_bbox extract_cluster_parameters
    frame frame_no = Ok records →
  Forall (λ r, 8 ≤ length (parameters r)) records →
  Forall (λ r, dense filterMetadata_thresh r = false) records →
  parseFrameVis remove_groundplane get_pts_in_bbox extract_cluster_parameters
    4 frame frame_no
  = Raise ValueError.
Proof.
  intros Hnd Hrec Hlen Hsparse.
  destruct (parseFrameVis_stages remove_groundplane get_pts_in_bbox
              extract_cluster_parameters 4 frame frame_no)
    as (vc & Hcopy & ->).
  rewrite <- parseFrame_metadata_records in Hrec by exact Hnd.
  pose proof (valid_records_keys _ _ _ _ _ _ _ Hcopy Hrec) as Hkeys.
  rewrite Hrec. cbn [mbind result_bind].
  destruct (filterMetadata_Ok vc filterMetadata_thresh records Hlen)
    as (fc & Hfilter & Hfc).
  { eapply Forall_impl; [exact Hkeys|]. intros r Hr _. exact Hr. }
  rewrite Hfilter. cbn [mbind result_bind].
  assert (filter (λ c, dense filterMetadata_thresh c = true) records = [])
    as Hnone by (apply filter_none; eapply Forall_impl; [exact Hsparse|];
                 intros r Hr; congruence).
  rewrite Hnone in Hfc |- *.
  assert (fc = ∅) as -> by (apply map_empty; intros k; apply Hfc).
  reflexivity.
Qed.

Lemma parseFrameVis_nothing_to_display_witness :
  parseFrameVis Sample.ground Sample.pts_in (Sample.params 8) 4 Sample.frame 3
  = Raise ValueError.
Proof.
  apply (parseFrameVis_nothing_to_display Sample.ground Sample.pts_in
           (Sample.params 8) Sample.frame 3
           [mkFeatures "a" 3 1 6 [0; 0; 0; 0; 0; 0; 0; 0.75]%float]).
  - apply (bool_decide_unpack _). vm_compute. exact I.
  - vm_compute. reflexivity.
  - repeat constructor.
  - repeat constructor.
Defined.

(** ** run: status updates *)

Lemma percent_mono (i j n : nat) :
  i ≤ j → (Run.percent i n ≤ Run.percent j n)%Z.
Proof.
  intros Hij. unfold Run.percent. destruct n as [|n].
  - change (Z.of_nat 0) with 0%Z. rewrite !Z.div_0_r. reflexivity.
  - apply Z.div_le_mono; lia.
Qed.

Lemma percent_bounds (i n : nat) :
  i < n → (0 ≤ Run.percent i n < 100)%Z.
Proof.
  intros Hi. unfold Run.percent. split.
  - apply Z.div_pos; lia.
  - apply Z.div_lt_upper_bound; lia.
Qed.

Lemma status_update_below (n i : nat) (progress : list Z) :
  Run.updates_below n i progress →
  Run.updates_below n (S i) (Run.status_update (Run.percent i n) progress).
Proof.
  intros [Hsorted Hmem]. unfold Run.status_update.
  set (p := Run.percent i n).
  destruct (bool_decide (p `mod` 10 = 0)%Z) eqn:Hten.
  - apply bool_decide_eq_true in Hten.
    destruct (bool_decide (p ∉ progress)) eqn:Hnew; cbn [andb].
    + apply bool_decide_eq_true in Hnew. split.
      * apply StronglySorted_app_2; [|exact Hsorted | repeat constructor].
        intros x y Hx ->%list_elem_of_singleton.
        apply Hmem in Hx as (_ & j & Hj & <-).
        assert (Run.percent j n ≤ p)%Z by (apply percent_mono; lia).
        assert (Run.percent j n ≠ p).
        { intros Heq. apply Hnew, Hmem. split; [exact Hten|]. eauto. }
        lia.
      * intros q. rewrite elem_of_app, list_elem_of_singleton, Hmem. split.
        -- intros [(Hq & j & Hj & <-) | ->].
           ++ split; [exact Hq|]. exists j. split; [lia | reflexivity].
           ++ split; [exact Hten|]. exists i. split; [lia | reflexivity].
        -- intros (Hq & j & Hj & <-).
           destruct (decide (j = i)) as [->|Hne]; [right; reflexivity|].
           left. split; [exact Hq|]. exists j. split; [lia | reflexivity].
    + apply bool_decide_eq_false in Hnew. apply dec_stable in Hnew.
      split; [exact Hsorted|]. intros q. rewrite Hmem. split.
      * intros (Hq & j & Hj & <-). split; [exact Hq|].
        exists j. split; [lia | reflexivity].
      * intros (Hq & j & Hj & <-).
        destruct (decide (j = i)) as [->|Hne]; [apply Hmem, Hnew|].
        split; [exact Hq|]. exists j. split; [lia | reflexivity].
  - apply bool_decide_eq_false in Hten. cbn [andb].
    split; [exact Hsorted|]. intros q. rewrite Hmem. split.
    + intros (Hq & j & Hj & <-). split; [exact Hq|].
      exists j. split; [lia | reflexivity].
    + intros (Hq & j & Hj & <-).
      destruct (decide (j = i)) as [->|Hne]; [contradiction|].
      split; [exact Hq|]. exists j. split; [lia | reflexivity].
Qed.

Section RunFacts.

Variable dir_save : string.
Context {D : Type}.
Variable dump : D → string.
Variable parse : Frame → Z → result (Saved D).
Variable record_len : nat.

Let body := Run.run_body dir_save dump parse record_len.
Let loop := Run.run_loop dir_save dump parse record_len.

(** The three ways a turn of the loop ends. *)
Lemma run_body_cases (overwrite : bool) (i : nat) (scan : Frame)
    (st : Run.state) :
  let progress := Run.status_update (Run.percent i record_len)
                    (Run.progress st) in
  (Run.parsed dir_save (Run.files st) i scan ∧ overwrite = false ∧
   body overwrite i scan st = (Ok (), Run.mk (Run.files st) progress)) ∨
  (¬ (Run.parsed dir_save (Run.files st) i scan ∧ overwrite = false) ∧
   ∃ saved, parse (Run.with_index scan i) (Z.of_nat i) = Ok saved ∧
     body overwrite i scan st
     = (Ok (), Run.mk (Run.saveClusterMetadata dir_save dump
                         (saved_metadata saved) (saved_name saved)
                         (Run.files st)) progress)) ∨
  (¬ (Run.parsed dir_save (Run.files st) i scan ∧ overwrite = false) ∧
   ∃ e, parse (Run.with_index scan i) (Z.of_nat i) = Raise e ∧
     body overwrite i scan st = (Raise e, Run.mk (Run.files st) progress)).
Proof.
  intros progress. unfold body, Run.run_body, Run.parsed. fold progress.
  destruct (Run.checkDataFile dir_save (Run.with_index scan i) (Run.files st))
    eqn:Hcheck; destruct overwrite; cbn [andb negb];
    try (left; done);
    right; (destruct (parse (Run.with_index scan i) (Z.of_nat i)) as [saved|e];
            [left | right]; (split; [intros [? ?]; congruence | eauto])).
Qed.

Lemma run_body_progress (overwrite : bool) (i : nat) (scan : Frame)
    (st : Run.state) :
  Run.progress (body overwrite i scan st).2
  = Run.status_update (Run.percent i record_len) (Run.progress st).
Proof.
  destruct (run_body_cases overwrite i scan st)
    as [(_ & _ & ->) | [(_ & saved & _ & ->) | (_ & e & _ & ->)]];
    reflexivity.
Qed.

(** The loop makes the status updates of the turns it goes through. *)
Lemma run_loop_updates (overwrite : bool) (scans : list Frame) (i : nat)
    (st : Run.state) :
  Run.updates_below record_len i (Run.progress st) →
  ∃ k, k ≤ length scans ∧
       ((loop overwrite i scans st).1 = Ok () → k = length scans) ∧
       Run.updates_below record_len (i + k)
         (Run.progress (loop overwrite i scans st).2).
Proof.
  revert i st. induction scans as [|scan scans IH]; intros i st Hinv.
  - exists 0. rewrite Nat.add_0_r. cbn. done.
  - unfold loop. cbn [Run.run_loop]. fold body loop.
    pose proof (run_body_progress overwrite i scan st) as Hprogress.
    pose proof (status_update_below _ _ _ Hinv) as Hnext.
    rewrite <- Hprogress in Hnext.
    destruct (body overwrite i scan st) as [[[]|e] st1]; cbn [snd] in *.
    + destruct (IH (S i) st1 Hnext) as (k & Hk & Hall & Hupd).
      exists (S k). rewrite Nat.add_succ_r. cbn [length].
      split; [lia|]. split; [intros Hok; rewrite (Hall Hok); reflexivity|].
      exact Hupd.
    + exists 1. rewrite Nat.add_1_r. cbn [length fst snd].
      split; [lia|]. split; [discriminate | exact Hnext].
Qed.

End RunFacts.

(** X10. Whatever [parseFrame] does, the STATUS UPDATE lines [run] has
    logged when it ends carry multiples of ten between 0 and 100, each once,
    in increasing order. The line of 100, logged after the loop, is there
    exactly when [run] returns; the lines logged inside the loop stay below
    100, and when [run] returns they carry exactly the multiples of ten among
    the percentages [100 * i / record_len] of the frame indices. *)
Theorem run_status_updates {D} (dir_save : string) (dump : D → string)
    (parse : Frame → Z → result (Saved D)) (tfrecord : list Frame)
    (overwrite : bool) (fs : gmap string string) :
  let out := Run.run dir_save dump parse tfrecord overwrite fs in
  let updates := Run.status_updates out in
  StronglySorted Z.lt updates ∧
  Forall (λ p, (0 ≤ p ≤ 100)%Z ∧ (p `mod` 10 = 0)%Z) updates ∧
  (100%Z ∈ updates ↔ out.1 = Ok ()) ∧
  (out.1 = Ok () →
   ∀ p, p ∈ updates ↔
        p = 100%Z ∨
        (p `mod` 10 = 0)%Z ∧
        ∃ i, i < length tfrecord ∧ Run.percent i (length tfrecord) = p).
Proof.
  intros out updates. unfold updates, Run.status_updates, out, Run.run.
  destruct (run_loop_updates dir_save dump parse (length tfrecord) overwrite
              tfrecord 0 (Run.mk fs []))
    as (k & Hk & Hall & Hsorted & Hmem).
  { split; [constructor|]. intros p. split; [intros []%elem_of_nil|].
    intros (_ & j & Hj & _). lia. }
  cbn [Nat.add] in Hmem.
  set (res := Run.run_loop dir_save dump parse (length tfrecord) overwrite 0
                tfrecord (Run.mk fs [])) in *.
  assert (∀ p, p ∈ Run.progress res.2 →
               (0 ≤ p < 100)%Z ∧ (p `mod` 10 = 0)%Z) as Hbelow.
  { intros p (Hten & j & Hj & <-)%Hmem.
    split; [apply percent_bounds; lia | exact Hten]. }
  destruct res.1 as [[]|e] eqn:Hres.
  - specialize (Hall eq_refl). subst k. split; [|split; [|split]].
    + apply StronglySorted_app_2; [|exact Hsorted | repeat constructor].
      intros x y Hx ->%list_elem_of_singleton. apply Hbelow in Hx. lia.
    + apply Forall_app. split.
      * apply Forall_forall. intros p Hp%Hbelow. lia.
      * apply Forall_singleton. split; [lia | reflexivity].
    + split; [reflexivity|]. intros _. apply elem_of_app. right. constructor.
    + intros _ p. rewrite elem_of_app, list_elem_of_singleton, Hmem. tauto.
  - split; [exact Hsorted|]. split; [|split].
    + apply Forall_forall. intros p Hp%Hbelow. lia.
    + split; [|discriminate]. intros Hp%Hbelow. lia.
    + discriminate.
Qed.

(** Twenty frames: an update at every second frame, and the last one after
    the loop. *)
Example run_status_updates_sample :
  Run.status_updates
    (Run.run "save" (λ _ : list Features, "[]")
       (parseFrameVis Sample.ground Sample.pts_in (Sample.params 0.125) 0)
       (replicate 20 Sample.frame) false ∅)
  = [0; 10; 20; 30; 40; 50; 60; 70; 80; 90; 100]%Z.
Proof. vm_compute. reflexivity. Qed.

(** A record file with no frame: the loop is not entered, and the one line
    logged is the last. *)
Example run_status_updates_no_frame :
  Run.status_updates
    (Run.run "save" (λ _ : list Features, "[]")
       (parseFrameVis Sample.ground Sample.pts_in (Sample.params 0.125) 0)
       [] false ∅)
  = [100%Z].
Proof. reflexivity. Qed.

(** With the method of the base class the first frame ends the run: the one
    line logged is that of the first frame. *)
Example run_status_updates_base :
  Run.status_updates
    (Run.run "save" (λ _ : list Features * gmap string (option ndarray), "[]")
       (parseFrame Sample.ground Sample.pts_in (Sample.params 0.125))
       (replicate 20 Sample.frame) false ∅)
  = [0%Z].
Proof. vm_compute. reflexivity. Qed.

(** ** run: the files *)

Lemma parsed_lookup (dir_save : string) (fs : gmap string string) (i : nat)
    (scan : Frame) :
  Run.parsed dir_save fs i scan ↔
  is_Some (fs !! Run.json_file dir_save
                   (context_name (Run.with_index scan i))).
Proof. unfold Run.parsed, Run.checkDataFile. apply bool_decide_eq_true. Qed.

Section RunFiles.

Variable dir_save : string.
Context {D : Type}.
Variable dump : D → string.
Variable parse : Frame → Z → result (Saved D).
Variable record_len : nat.

Let body := Run.run_body dir_save dump parse record_len.
Let loop := Run.run_loop dir_save dump parse record_len.

(** A turn of the loop removes no file, and, when it returns, the file of
    its frame is there. *)
Lemma run_body_files (overwrite : bool) (i : nat) (scan : Frame)
    (st : Run.state) :
  Run.saves_under_frame_name parse →
  dom (Run.files st) ⊆ dom (Run.files (body overwrite i scan st).2) ∧
  ((body overwrite i scan st).1 = Ok () →
   Run.parsed dir_save (Run.files (body overwrite i scan st).2) i scan).
Proof.
  intros Hname.
  destruct (run_body_cases dir_save dump parse record_len overwrite i scan st)
    as [(Hparsed & _ & Hrun) | [(_ & saved & Hsaved & Hrun)
                                | (_ & e & _ & Hrun)]];
    fold body in Hrun; rewrite Hrun; cbn [fst snd Run.files].
  - split; [reflexivity | intros _; exact Hparsed].
  - unfold Run.saveClusterMetadata. rewrite dom_insert. split; [set_solver|].
    intros _. apply parsed_lookup. rewrite (Hname _ _ _ Hsaved).
    rewrite lookup_insert_eq. eauto.
  - split; [reflexivity | discriminate].
Qed.

(** Without [overwrite], a turn of the loop leaves every file as it is. *)
Lemma run_body_keeps (i : nat) (scan : Frame) (st : Run.state) :
  Run.saves_under_frame_name parse →
  Run.files st ⊆ Run.files (body false i scan st).2.
Proof.
  intros Hname.
  destruct (run_body_cases dir_save dump parse record_len false i scan st)
    as [(_ & _ & Hrun) | [(Hnot & saved & Hsaved & Hrun)
                          | (_ & e & _ & Hrun)]];
    fold body in Hrun; rewrite Hrun; cbn [snd Run.files]; try reflexivity.
  unfold Run.saveClusterMetadata. rewrite (Hname _ _ _ Hsaved).
  apply insert_subseteq.
  destruct (Run.files st !! _) as [text|] eqn:Hfile; [|reflexivity].
  exfalso. apply Hnot. split; [|reflexivity].
  apply parsed_lookup. rewrite Hfile. eauto.
Qed.

Lemma run_loop_keeps (scans : list Frame) (i : nat) (st : Run.state) :
  Run.saves_under_frame_name parse →
  Run.files st ⊆ Run.files (loop false i scans st).2.
Proof.
  intros Hname. revert i st.
  induction scans as [|scan scans IH]; intros i st; [reflexivity|].
  unfold loop. cbn [Run.run_loop]. fold body loop.
  pose proof (run_body_keeps i scan st Hname) as Hstep.
  destruct (body false i scan st) as [[[]|e] st1]; cbn [snd] in *;
    [|exact Hstep].
  etrans; [exact Hstep | apply IH].
Qed.

Lemma run_loop_dom (overwrite : bool) (scans : list Frame) (i : nat)
    (st : Run.state) :
  Run.saves_under_frame_name parse →
  dom (Run.files st) ⊆ dom (Run.files (loop overwrite i scans st).2).
Proof.
  intros Hname. revert i st.
  induction scans as [|scan scans IH]; intros i st; [reflexivity|].
  unfold loop. cbn [Run.run_loop]. fold body loop.
  destruct (run_body_files overwrite i scan st Hname) as [Hstep _].
  destruct (body overwrite i scan st) as [[[]|e] st1]; cbn [snd] in *;
    [|exact Hstep].
  etrans; [exact Hstep | apply IH].
Qed.

(** When the loop returns, the file of every frame it went through is
    there. *)
Lemma run_loop_parsed (overwrite : bool) (scans : list Frame) (i : nat)
    (st : Run.state) :
  Run.saves_under_frame_name parse →
  (loop overwrite i scans st).1 = Ok () →
  ∀ k scan, scans !! k = Some scan →
    Run.parsed dir_save (Run.files (loop overwrite i scans st).2) (i + k) scan.
Proof.
  intros Hname. revert i st.
  induction scans as [|scan scans IH]; intros i st Hok k scan' Hk;
    [discriminate|].
  unfold loop in Hok |- *. cbn [Run.run_loop] in Hok |- *.
  fold body loop in Hok |- *.
  destruct (run_body_files overwrite i scan st Hname) as [_ Hstep].
  destruct (body overwrite i scan st) as [[[]|e] st1]; cbn [fst snd] in *;
    [|discriminate].
  destruct k as [|k]; cbn in Hk.
  - injection Hk as <-. rewrite Nat.add_0_r.
    apply parsed_lookup, elem_of_dom.
    apply (run_loop_dom overwrite scans (S i) st1 Hname).
    apply elem_of_dom, parsed_lookup, Hstep. reflexivity.
  - rewrite Nat.add_succ_r. apply (IH (S i) st1 Hok k scan' Hk).
Qed.

End RunFiles.

Section RunSkips.

Variable dir_save : string.
Context {D : Type}.
Variable dump : D → string.
Variable parse : Frame → Z → result (Saved D).
Variable record_len : nat.

Let loop := Run.run_loop dir_save dump parse record_len.

(** When the file of every frame is there, the loop without [overwrite]
    goes through without a call to [parseFrame], and leaves the files. *)
Lemma run_loop_skips (scans : list Frame) (i : nat) (st : Run.state) :
  (∀ k scan, scans !! k = Some scan →
             Run.parsed dir_save (Run.files st) (i + k) scan) →
  (loop false i scans st).1 = Ok () ∧
  Run.files (loop false i scans st).2 = Run.files st.
Proof.
  revert i st. induction scans as [|scan scans IH]; intros i st Hall;
    [split; reflexivity|].
  unfold loop. cbn [Run.run_loop]. fold loop.
  destruct (run_body_cases dir_save dump parse record_len false i scan st)
    as [(_ & _ & ->) | [(Hnot & _) | (Hnot & _)]].
  - destruct (IH (S i) (Run.mk (Run.files st)
                          (Run.status_update (Run.percent i record_len)
                             (Run.progress st)))) as [Hok Hfiles].
    + cbn [Run.files]. intros k scan' Hk.
      rewrite Nat.add_succ_comm. apply (Hall (S k) scan' Hk).
    + split; [exact Hok | exact Hfiles].
  - exfalso. apply Hnot. split; [|reflexivity].
    rewrite <- (Nat.add_0_r i). apply (Hall 0 scan eq_refl).
  - exfalso. apply Hnot. split; [|reflexivity].
    rewrite <- (Nat.add_0_r i). apply (Hall 0 scan eq_refl).
Qed.

(** With a [parseFrame] that always raises, the loop leaves the files, and
    returns only if it never has to call it. *)
Lemma run_loop_never_parses (overwrite : bool) (scans : list Frame)
    (i : nat) (st : Run.state) :
  (∀ frame n, raises (parse frame n)) →
  Run.files (loop overwrite i scans st).2 = Run.files st ∧
  ((loop overwrite i scans st).1 = Ok () ↔
   scans = [] ∨
   (overwrite = false ∧
    ∀ k scan, scans !! k = Some scan →
              Run.parsed dir_save (Run.files st) (i + k) scan)).
Proof.
  intros Hraises. revert i st.
  induction scans as [|scan scans IH]; intros i st.
  - split; [reflexivity|]. split; [left; reflexivity | reflexivity].
  - unfold loop. cbn [Run.run_loop]. fold loop.
    destruct (run_body_cases dir_save dump parse record_len overwrite i scan st)
      as [(Hparsed & -> & ->) | [(_ & saved & Hsaved & _)
                                 | (Hnot & e & _ & ->)]].
    + destruct (IH (S i) (Run.mk (Run.files st)
                            (Run.status_update (Run.percent i record_len)
                               (Run.progress st)))) as [Hfiles Hok].
      cbn [Run.files] in *. split; [exact Hfiles|]. rewrite Hok.
      split.
      * intros Hrest. right. split; [reflexivity|]. intros [|k] scan' Hk.
        -- injection Hk as <-. rewrite Nat.add_0_r. exact Hparsed.
        -- rewrite Nat.add_succ_r.
           destruct Hrest as [->|[_ Hrest]]; [discriminate|].
           apply (Hrest k scan' Hk).
      * intros [[=]|[_ Hall]]. right. split; [reflexivity|].
        intros k scan' Hk. rewrite Nat.add_succ_comm.
        apply (Hall (S k) scan' Hk).
    + destruct (Hraises (Run.with_index scan i) (Z.of_nat i)) as [e He].
      congruence.
    + cbn [fst snd Run.files]. split; [reflexivity|]. split; [discriminate|].
      intros [[=]|[-> Hall]]. exfalso. apply Hnot. split; [|reflexivity].
      rewrite <- (Nat.add_0_r i). apply (Hall 0 scan eq_refl).
Qed.

End RunSkips.

Lemma parseFrame_raises
    (remove_groundplane : ndarray → ndarray)
    (get_pts_in_bbox : ndarray → Label.t → ndarray)
    (extract_cluster_parameters : ndarray → result (list float))
    (frame : Frame) (frame_no : Z) :
  raises (parseFrame remove_groundplane get_pts_in_bbox
            extract_cluster_parameters frame frame_no).
Proof.
  rewrite parseFrame_filter_call.
  destruct (parseFrame_metadata _ _ _ _); eexists; reflexivity.
Qed.

Lemma parseFrameVis_saves_under_frame_name
    (remove_groundplane : ndarray → ndarray)
    (get_pts_in_bbox : ndarray → Label.t → ndarray)
    (extract_cluster_parameters : ndarray → result (list float))
    (visualize : Z) :
  Run.saves_under_frame_name
    (parseFrameVis remove_groundplane get_pts_in_bbox
       extract_cluster_parameters visualize).
Proof.
  intros frame i saved.
  destruct (parseFrameVis_stages remove_groundplane get_pts_in_bbox
              extract_cluster_parameters visualize frame i)
    as (vc & _ & ->).
  intros (metadata & _ & ([sub subc] & _ & ([] & _ & [= <-])%bind_Ok_inv)
            %bind_Ok_inv)%bind_Ok_inv.
  reflexivity.
Qed.

(** X11. Without [overwrite], [run] rewrites no file: every file that is
    there before the call is there after it with the same text, whether the
    call returns or raises. *)
Theorem run_keeps_existing_files {D} (dir_save : string) (dump : D → string)
    (parse : Frame → Z → result (Saved D)) (tfrecord : list Frame)
    (fs : gmap string string) :
  Run.saves_under_frame_name parse →
  fs ⊆ Run.files (Run.run dir_save dump parse tfrecord false fs).2.
Proof.
  intros Hname.
  apply (run_loop_keeps dir_save dump parse (length tfrecord) tfrecord 0
           (Run.mk fs []) Hname).
Qed.

Lemma run_keeps_existing_files_witness :
  Run.files
    (Run.run "save" (λ _ : list Features, "[]")
       (parseFrameVis Sample.ground Sample.pts_in (Sample.params 0.125) 0)
       [Sample.frame; Sample.frame] false
       {[ "save/seg-0-1.json" := "old" ]}).2
  !! "save/seg-0-1.json" = Some "old".
Proof.
  eapply lookup_weaken;
    [|apply (run_keeps_existing_files "save" (λ _ : list Features, "[]")
               (parseFrameVis Sample.ground Sample.pts_in
                  (Sample.params 0.125) 0)
               [Sample.frame; Sample.frame]
               {[ "save/seg-0-1.json" := "old" ]}),
             parseFrameVis_saves_under_frame_name].
  reflexivity.
Defined.

(** X12. After a [run] that returned, the file of every frame, named after
    the frame and its index, is there, and a second [run] over the same
    record file without [overwrite] returns without one call of
    [parseFrame] and leaves the files as they are. *)
Theorem run_again_skips_every_frame {D} (dir_save : string)
    (dump : D → string) (parse : Frame → Z → result (Saved D))
    (tfrecord : list Frame) (overwrite : bool) (fs : gmap string string) :
  Run.saves_under_frame_name parse →
  (Run.run dir_save dump parse tfrecord overwrite fs).1 = Ok () →
  let fs' := Run.files (Run.run dir_save dump parse tfrecord overwrite fs).2 in
  (∀ i scan, tfrecord !! i = Some scan → Run.parsed dir_save fs' i scan) ∧
  ∀ parse' : Frame → Z → result (Saved D),
    (Run.run dir_save dump parse' tfrecord false fs').1 = Ok () ∧
    Run.files (Run.run dir_save dump parse' tfrecord false fs').2 = fs'.
Proof.
  intros Hname Hok fs'.
  assert (∀ i scan, tfrecord !! i = Some scan → Run.parsed dir_save fs' i scan)
    as Hparsed.
  { intros i scan Hi.
    apply (run_loop_parsed dir_save dump parse (length tfrecord) overwrite
             tfrecord 0 (Run.mk fs []) Hname Hok i scan Hi). }
  split; [exact Hparsed|]. intros parse'.
  apply (run_loop_skips dir_save dump parse' (length tfrecord) tfrecord 0
           (Run.mk fs' [])).
  exact Hparsed.
Qed.

Lemma run_again_skips_every_frame_witness :
  let dump := λ _ : list Features, "[]" in
  let tfrecord := [Sample.frame; Sample.frame] in
  let fs' :=
    Run.files
      (Run.run "save" dump
         (parseFrameVis Sample.ground Sample.pts_in (Sample.params 0.125) 0)
         tfrecord true ∅).2 in
  dom fs' = {[ "save/seg-0-0.json"; "save/seg-0-1.json" ]} ∧
  Run.files (Run.run "save" dump (λ _ _, Raise SystemError) tfrecord false
               fs').2 = fs'.
Proof.
  intros dump tfrecord fs'. split; [vm_compute; reflexivity|].
  apply (run_again_skips_every_frame "save" dump
           (parseFrameVis Sample.ground Sample.pts_in (Sample.params 0.125) 0)
           tfrecord true ∅).
  - apply parseFrameVis_saves_under_frame_name.
  - vm_compute. reflexivity.
Defined.

(** X13. [run] of the base class [DatasetCreator] writes no file: its
    [parseFrame] raises on every frame, so the files are left as they are,
    and the call returns only when there is no frame, or when [overwrite] is
    off and the file of every frame is there already. *)
Theorem run_base_writes_nothing (dir_save : string)
    (dump : list Features * gmap string (option ndarray) → string)
    (remove_groundplane : ndarray → ndarray)
    (get_pts_in_bbox : ndarray → Label.t → ndarray)
    (extract_cluster_parameters : ndarray → result (list float))
    (tfrecord : list Frame) (overwrite : bool) (fs : gmap string string) :
  let out :=
    Run.run dir_save dump
      (parseFrame remove_groundplane get_pts_in_bbox
         extract_cluster_parameters)
      tfrecord overwrite fs in
  Run.files out.2 = fs ∧
  (out.1 = Ok () ↔
   tfrecord = [] ∨
   (overwrite = false ∧
    ∀ i scan, tfrecord !! i = Some scan → Run.parsed dir_save fs i scan)).
Proof.
  intros out.
  apply (run_loop_never_parses dir_save dump
           (parseFrame remove_groundplane get_pts_in_bbox
              extract_cluster_parameters)
           (length tfrecord) overwrite tfrecord 0 (Run.mk fs [])).
  intros frame n. apply parseFrame_raises.
Qed.

(** The base class on a record file of two frames: the first frame ends the
    run, with its status update made and nothing written. *)
Example run_base_sample :
  Run.run "save" (λ _, "[]")
    (parseFrame Sample.ground Sample.pts_in (Sample.params 0.125))
    [Sample.frame; Sample.frame] false ∅
  = (Raise TypeError, Run.mk ∅ [0%Z]).
Proof. vm_compute. reflexivity. Qed.

(** ** filterMetadata over the store: the results share the input's objects *)

Lemma run_bind_Ok_inv {A B} (m : Store.M A) (f : A → Store.M B) h b h' :
  (m ≫= f) h = (Ok b, h') → ∃ a h1, m h = (Ok a, h1) ∧ f a h1 = (Ok b, h').
Proof.
  unfold mbind, Store.M_bind. destruct (m h) as [[a|e] h1]; [eauto|].
  discriminate.
Qed.

Section StoreShares.

Variable h0 : Store.store.
Variables metadata clusters : Store.loc.
Variable refs : list Store.loc.
Variable ms : list Features.
Variable d : gmap string Store.pyval.
Variable thresh : float.

Hypothesis Hmetadata : Store.holds_records h0 metadata refs ms.
Hypothesis Hclusters : Store.holds_dict h0 clusters d.

(** A turn of the loop that returns leaves the result list as it is, or
    appends the reference found at index [i] of the input list. *)
Lemma store_body_shares (i : nat) (h h' : Store.store) (fm fc : Store.loc)
    (frefs : list Store.loc) (fms : list Features)
    (fd : gmap string Store.pyval) :
  Store.building h0 h fm fc frefs fms fd →
  Store.filterMetadata_body metadata clusters thresh fm fc i h = (Ok (), h') →
  ∃ frefs' fms' fd',
    Store.building h0 h' fm fc frefs' fms' fd' ∧
    (frefs' = frefs ∨ ∃ r, refs !! i = Some r ∧ frefs' = frefs ++ [r]).
Proof.
  intros Hb Hrun.
  pose proof (store_body_refines h0 metadata clusters refs ms d thresh
                Hmetadata Hclusters i h fm fc frefs fms fd Hb) as Href.
  destruct Hb as [Hext Hlist Hrecs Hdict Hnfm Hnfc Hne].
  destruct Hmetadata as [Hmeta Hall].
  pose proof (lookup_weaken _ _ _ _ Hmeta Hext) as Hmeta'.
  destruct (filterMetadata_body ms d thresh (fms, fd) i) as [[fms' fd']|e];
    [|destruct Href as (h'' & Hraise); congruence].
  destruct Href as (h'' & frefs' & Hrun' & Hb').
  rewrite Hrun in Hrun'. injection Hrun' as <-.
  exists frefs', fms', fd'. split; [exact Hb'|].
  pose proof (Store.building_list _ _ _ _ _ _ _ Hb') as Hlist'.
  unfold Store.filterMetadata_body in Hrun.
  apply run_bind_Ok_inv in Hrun as (c & h1 & Hc & Hrun).
  rewrite (run_list_getitem _ _ _ i Hmeta') in Hc.
  destruct (refs !! i) as [r|] eqn:Hr; [|discriminate].
  injection Hc as <- <-.
  apply run_bind_Ok_inv in Hrun as (ps & h1 & Hps & Hrun).
  destruct (Forall2_lookup_l _ _ _ _ _ Hall Hr) as (m & _ & Hrm).
  rewrite (run_get_parameters _ _ _ (lookup_weaken _ _ _ _ Hrm Hext)) in Hps.
  injection Hps as <- <-.
  apply run_bind_Ok_inv in Hrun as (density & h1 & Hdensity & Hrun).
  rewrite run_parameter in Hdensity.
  destruct (parameters m !! 7); [|discriminate]. injection Hdensity as <- <-.
  destruct (float_gt _ thresh).
  - right. exists r. split; [reflexivity|].
    apply run_bind_Ok_inv in Hrun as (k & h1 & Hk & Hrun).
    rewrite (run_get_cluster_id _ _ _ (lookup_weaken _ _ _ _ Hrm Hext)) in Hk.
    injection Hk as <- <-.
    apply run_bind_Ok_inv in Hrun as (v & h1 & Hv & Hrun).
    rewrite (run_dict_getitem _ _ _ _ (lookup_weaken _ _ _ _ Hclusters Hext))
      in Hv.
    destruct (d !! cluster_id m); [|discriminate]. injection Hv as <- <-.
    apply run_bind_Ok_inv in Hrun as ([] & h1 & Hset & Hrun).
    rewrite (run_dict_setitem _ _ _ _ _ Hdict) in Hset.
    injection Hset as <-.
    rewrite (run_list_append _ _ frefs) in Hrun
      by (rewrite lookup_insert_ne by congruence; exact Hlist).
    injection Hrun as <-. rewrite lookup_insert_eq in Hlist'. congruence.
  - left. injection Hrun as <-. congruence.
Qed.

(** The loop over the indices from [i] on appends references of the input
    list from index [i] on, in order. *)
Lemma store_loop_shares (k i : nat) (h h' : Store.store) (fm fc : Store.loc)
    (frefs : list Store.loc) (fms : list Features)
    (fd : gmap string Store.pyval) :
  Store.building h0 h fm fc frefs fms fd →
  Store.for_in (seq i k)
    (Store.filterMetadata_body metadata clusters thresh fm fc) h
  = (Ok (), h') →
  ∃ l fms' fd',
    Store.building h0 h' fm fc (frefs ++ l) fms' fd' ∧
    l `sublist_of` drop i refs.
Proof.
  revert i h frefs fms fd. induction k as [|k IH]; intros i h frefs fms fd Hb.
  - intros [= <-]. exists [], fms, fd. rewrite app_nil_r.
    split; [exact Hb | apply sublist_nil_l].
  - cbn [seq Store.for_in].
    intros ([] & h1 & Hstep & Hrest)%run_bind_Ok_inv.
    destruct (store_body_shares i h h1 fm fc frefs fms fd Hb Hstep)
      as (frefs1 & fms1 & fd1 & Hb1 & Hshape).
    destruct (IH (S i) h1 frefs1 fms1 fd1 Hb1 Hrest)
      as (l & fms' & fd' & Hb' & Hsub).
    destruct Hshape as [->|(r & Hr & ->)].
    + exists l, fms', fd'. split; [exact Hb'|].
      destruct (refs !! i) as [r|] eqn:Hr.
      * rewrite (drop_S _ _ _ Hr). apply sublist_cons, Hsub.
      * apply lookup_ge_None in Hr. rewrite drop_ge in Hsub |- * by lia.
        exact Hsub.
    + exists (r :: l), fms', fd'. rewrite <- app_assoc in Hb'.
      split; [exact Hb'|]. rewrite (drop_S _ _ _ Hr). apply sublist_skip, Hsub.
Qed.

End StoreShares.

(** X6. What [filterMetadata] returns shares the objects of its arguments:
    the returned list holds, in order, references taken from the input list
    (the kept records are the very [Features] objects of the input, not
    copies), and every entry of the returned dict is an entry of the input
    dict, array reference included. *)
Theorem filterMetadata_shares_input_objects (h0 h' : Store.store)
    (metadata clusters fm fc : Store.loc) (refs : list Store.loc)
    (ms : list Features) (d : gmap string Store.pyval) (thresh : float) :
  Store.holds_records h0 metadata refs ms →
  Store.holds_dict h0 clusters d →
  Store.filterMetadata metadata clusters thresh h0 = (Ok (fm, fc), h') →
  ∃ frefs fd,
    h' !! fm = Some (Store.OList frefs) ∧ frefs `sublist_of` refs ∧
    h' !! fc = Some (Store.ODict fd) ∧ fd ⊆ d.
Proof.
  intros Hmetadata Hclusters Hrun.
  pose proof (filterMetadata_store_refines h0 metadata clusters refs ms d
                thresh Hmetadata Hclusters) as Href.
  destruct (filterMetadata ms d thresh) as [[fms fd]|e] eqn:Hpure;
    [|destruct Href as (h'' & Hraise); congruence].
  destruct Href as (fm' & fc' & frefs' & h'' & Hrun' & Hb').
  rewrite Hrun in Hrun'. injection Hrun' as <- <- <-.
  assert (fd ⊆ d) as Hsub.
  { destruct (filterMetadata_Ok_inv _ _ _ _ Hpure) as [Hlen Hkey].
    destruct (filterMetadata_Ok d thresh ms Hlen Hkey) as (fd' & Hpure' & Hfd).
    rewrite Hpure in Hpure'. injection Hpure' as _ <-.
    apply map_subseteq_spec. intros k v. rewrite Hfd.
    case_decide; [done | discriminate]. }
  unfold Store.filterMetadata in Hrun.
  apply run_bind_Ok_inv in Hrun as (fm0 & h1 & Hfm & Hrun).
  injection Hfm as <- <-.
  apply run_bind_Ok_inv in Hrun as (fc0 & h2 & Hfc & Hrun).
  injection Hfc as <- <-.
  set (fm0 := fresh (dom h0)) in *.
  set (h1 := <[fm0 := Store.OList []]> h0) in *.
  set (fc0 := fresh (dom h1)) in *.
  set (h2 := <[fc0 := Store.ODict ∅]> h1) in *.
  assert (h0 !! fm0 = None) as Hnfm by apply not_elem_of_dom, is_fresh.
  assert (h1 !! fc0 = None) as Hnfc1 by apply not_elem_of_dom, is_fresh.
  assert (fm0 ≠ fc0) as Hne.
  { intros Heq. rewrite <- Heq in Hnfc1. unfold h1 in Hnfc1.
    rewrite lookup_insert_eq in Hnfc1. discriminate Hnfc1. }
  assert (h0 !! fc0 = None) as Hnfc.
  { unfold h1 in Hnfc1. rewrite lookup_insert_ne in Hnfc1 by exact Hne.
    exact Hnfc1. }
  assert (Store.building h0 h2 fm0 fc0 [] [] ∅) as Hb.
  { constructor; try assumption.
    - apply insert_subseteq_r; [exact Hnfc|].
      apply insert_subseteq_r; [exact Hnfm | reflexivity].
    - unfold h2, h1. rewrite lookup_insert_ne by congruence.
      apply lookup_insert_eq.
    - constructor.
    - apply lookup_insert_eq. }
  apply run_bind_Ok_inv in Hrun as (n & h3 & Hn & Hrun).
  apply run_bind_Ok_inv in Hrun as ([] & h4 & Hloop & Hret).
  injection Hret as <- <- <-.
  rewrite (run_len_list _ _ refs) in Hn
    by apply (lookup_weaken _ _ _ _ (proj1 Hmetadata)
                (Store.building_extends _ _ _ _ _ _ _ Hb)).
  injection Hn as <- <-.
  destruct (store_loop_shares h0 metadata clusters refs ms d thresh
              Hmetadata Hclusters (length refs) 0 h2 h4 fm0 fc0 [] [] ∅
              Hb Hloop) as (l & fms1 & fd1 & Hb1 & Hl).
  exists l, fd. rewrite drop_0 in Hl.
  split; [apply (Store.building_list _ _ _ _ _ _ _ Hb1)|].
  split; [exact Hl|].
  split; [apply (Store.building_dict _ _ _ _ _ _ _ Hb') | exact Hsub].
Qed.

Lemma filterMetadata_shares_input_objects_witness :
  ∃ frefs fd,
    (Store.filterMetadata 3 5 filterMetadata_thresh Sample.store).2
    !! 6%positive = Some (Store.OList frefs) ∧
    frefs `sublist_of` [1%positive; 2%positive] ∧
    (Store.filterMetadata 3 5 filterMetadata_thresh Sample.store).2
    !! 7%positive = Some (Store.ODict fd) ∧
    fd ⊆ {[ "a" := Store.PRef 4%positive; "b" := Store.PNone ]}.
Proof.
  apply (filterMetadata_shares_input_objects Sample.store _ 3 5 6 7
           [1%positive; 2%positive] Sample.metadata
           {[ "a" := Store.PRef 4%positive; "b" := Store.PNone ]}
           filterMetadata_thresh).
  - split; [reflexivity|]. repeat constructor.
  - reflexivity.
  - vm_compute. reflexivity.
Defined.

(** ** The files of a record file's frames *)

Lemma string_length_app (s t : string) :
  String.length (s +:+ t) = String.length s + String.length t.
Proof.
  induction s as [|a s IH]; [reflexivity|].
  simpl. f_equal. exact IH.
Qed.

Lemma string_app_inj_r (s1 s2 t : string) : s1 +:+ t = s2 +:+ t → s1 = s2.
Proof.
  revert s2. induction s1 as [|a s1 IH]; intros [|b s2] Heq.
  - reflexivity.
  - apply (f_equal String.length) in Heq.
    change ("" +:+ t) with t in Heq.
    rewrite string_length_app in Heq. simpl in Heq. lia.
  - apply (f_equal String.length) in Heq.
    change ("" +:+ t) with t in Heq.
    rewrite string_length_app in Heq. simpl in Heq. lia.
  - simpl in Heq. injection Heq as -> Heq. f_equal. apply IH, Heq.
Qed.

(** X14. [checkDataFile] and [saveClusterMetadata] name files one to one:
    two names give the same file only if they are the same name, and two
    frames of one context name, renamed with their indices by [run], give
    the same file only at the same index, so no frame of a record file is
    saved over another. *)
Theorem json_file_one_to_one (dir_save : string) :
  (∀ name1 name2,
     Run.json_file dir_save name1 = Run.json_file dir_save name2 →
     name1 = name2) ∧
  (∀ scan1 scan2 i j,
     context_name scan1 = context_name scan2 →
     Run.json_file dir_save (context_name (Run.with_index scan1 i))
     = Run.json_file dir_save (context_name (Run.with_index scan2 j)) →
     i = j).
Proof.
  assert (∀ name1 name2,
            Run.json_file dir_save name1 = Run.json_file dir_save name2 →
            name1 = name2) as Hinj.
  { intros name1 name2 Heq. unfold Run.json_file in Heq.
    apply (inj (String.app dir_save)), (inj (String.app "/")) in Heq.
    apply (string_app_inj_r _ _ _ Heq). }
  split; [exact Hinj|].
  intros scan1 scan2 i j Hname Heq. apply Hinj in Heq.
  unfold Run.with_index in Heq. cbn [context_name] in Heq.
  rewrite Hname in Heq.
  apply (inj (String.app (context_name scan2))),
        (inj (String.app "-")) in Heq.
  apply (inj pretty), Heq.
Qed.
